(** * sendCalls (EIP-5792 [wallet_sendCalls]) — a shallow embedding

    Source: [src/experimental/eip5792/actions/sendCalls.ts].

    The action is embedded as a program in a small writer-and-exception
    monad: exceptions are JavaScript [throw]s, the written log records the
    calls made to the two observable collaborators (the ABI encoder and
    the client's transport), in the order in which they happen. *)

From Stdlib Require Import List String ZArith Lia Bool HexString.
Import ListNotations.
Local Open Scope string_scope.
Local Open Scope Z_scope.
Local Open Scope list_scope.

(* ------------------------------------------------------------------ *)
(** ** Data *)

Definition Hex := string.
Definition Address := string.

(** The interface description and the argument list of a structured call
    are opaque to [sendCalls]: it hands them to the encoder untouched. *)
Definition Abi := list string.
Definition Args := list string.

(** [capabilities] is passed through untouched: keys with opaque values. *)
Definition Capabilities := list (string * string).

(** [types/chain.ts]: only [id] is read by this action.  A JavaScript
    [number] holding a chain id is modelled by an integer. *)
Module Chain.
Record t := mk { id : Z; name : string }.
End Chain.

(** [types/account.ts]: an account object. *)
Module Account.
Record t := mk { address : Address; type : string }.
End Account.

(** The [account] parameter is [Account | Address]. *)
Inductive AccountRef :=
| AddressRef (address : Address)
| AccountObject (account : Account.t).

(** [Call], lines 147-165, as the object the callback of [map] reads: every
    field is optional at run time ([call_ as Call] is a cast, not a check).
    [value] is a [bigint]. *)
Module Call.
Record t := mk {
  chain : option Chain.t;
  chainId : option Z;
  abi : option Abi;
  functionName : option string;
  args : option Args;
  data : option Hex;
  to : option Address;
  value : option Z
}.
End Call.

(** The object literal returned by the callback, lines 112-117. *)
Module NormalizedCall.
Record t := mk {
  chainId : Hex;
  data : option Hex;
  to : option Address;
  value : option Hex
}.
End NormalizedCall.

(** The element of [params], lines 125-131. *)
Module SendCallsParams.
Record t := mk {
  calls : list NormalizedCall.t;
  capabilities : option Capabilities;
  chainId : Hex;
  from : Address;
  version : string
}.
End SendCallsParams.

(** The first argument of [client.request], lines 122-133. *)
Module RpcRequest.
Record t := mk { method : string; params : list SendCallsParams.t }.
End RpcRequest.

(** The second argument of [client.request], line 134. *)
Module RequestOptions.
Record t := mk { retryCount : Z }.
End RequestOptions.

(** [SendCallsParameters], lines 24-38. *)
Module Parameters.
Record t := mk {
  account : option AccountRef;
  calls : list Call.t;
  capabilities : option Capabilities;
  chain : option Chain.t;
  version : option string
}.
End Parameters.

(** The second argument of [getTransactionError], lines 138-140:
    [{ ...parameters, account, chain: parameters.chain! }]. *)
Module ErrorArgs.
Record t := mk {
  account : Account.t;
  calls : list Call.t;
  capabilities : option Capabilities;
  chain : option Chain.t;
  version : option string
}.
End ErrorArgs.

(** What can be thrown.  [Thrown] stands for an error object raised by a
    collaborator (encoder, hex conversion, transport), identified by its
    name and message. *)
Inductive Error :=
| AccountNotFoundError (docsPath : string)
| ChainNotFoundError
| TypeError (message : string)
| Thrown (name message : string)
| TransactionExecutionError (cause : Error) (args : ErrorArgs.t).

(** [numberToHex] is applied to a [number] (chain ids) and to a [bigint]
    (transfer amounts). *)
Inductive Numeric :=
| number (n : Z)
| bigint (n : Z).

(** [Client], as far as the action uses it.  [request] is called at most
    once per invocation, so a function of its arguments describes it. *)
Module Client.
Record t := mk {
  account : option Account.t;
  chain : option Chain.t;
  request : RpcRequest.t -> RequestOptions.t -> Error + string
}.
End Client.

(* ------------------------------------------------------------------ *)
(** ** Effects *)

(** Observable calls to collaborators. *)
Inductive Event :=
| EncodeCall (abi : Abi) (functionName : option string) (args : option Args)
| RequestCall (request : RpcRequest.t) (options : RequestOptions.t).

(** A computation yields the log of what it did and either the thrown
    error or its value. *)
Definition M (A : Type) : Type := list Event * (Error + A).

Definition ret {A} (a : A) : M A := ([], inr a).

Definition throw {A} (e : Error) : M A := ([], inl e).

Definition bind {A B} (m : M A) (f : A -> M B) : M B :=
  match m with
  | (l, inl e) => (l, inl e)
  | (l, inr a) => let (l', r) := f a in (l ++ l', r)
  end.

Definition emit (ev : Event) : M unit := ([ev], inr tt).

Definition lift {A} (r : Error + A) : M A := ([], r).

(** [try { m } catch (err) { h err }] *)
Definition try_catch {A} (m : M A) (h : Error -> M A) : M A :=
  match m with
  | (l, inl e) => let (l', r) := h e in (l ++ l', r)
  | (l, inr a) => (l, inr a)
  end.

Declare Scope js_scope.
Delimit Scope js_scope with js.
Notation "x <- m ;; k" := (bind m (fun x => k))
  (at level 100, m at next level, right associativity) : js_scope.
Notation "m ;;; k" := (bind m (fun _ => k))
  (at level 100, right associativity) : js_scope.
Local Open Scope js_scope.

(** [Array.prototype.map] with a callback that may throw: elements are
    visited from index 0 upwards and the first throw ends the loop. *)
Fixpoint mapM {A B} (f : A -> M B) (l : list A) : M (list B) :=
  match l with
  | [] => ret []
  | x :: xs => y <- f x ;; ys <- mapM f xs ;; ret (y :: ys)
  end.

Definition log {A} (m : M A) : list Event := fst m.
Definition result {A} (m : M A) : Error + A := snd m.

(** The transport requests found in a log. *)
Fixpoint requests (l : list Event) : list (RpcRequest.t * RequestOptions.t) :=
  match l with
  | [] => []
  | RequestCall r o :: l' => (r, o) :: requests l'
  | EncodeCall _ _ _ :: l' => requests l'
  end.

(** The encoder invocations found in a log. *)
Fixpoint encodings (l : list Event) : list (Abi * option string * option Args) :=
  match l with
  | [] => []
  | EncodeCall a f x :: l' => (a, f, x) :: encodings l'
  | RequestCall _ _ :: l' => encodings l'
  end.

(* ------------------------------------------------------------------ *)
(** ** JavaScript operators *)

(** JavaScript truthiness of [account_]: [undefined] and the empty string
    are falsy, every object is truthy. *)
Definition truthy_account (a : option AccountRef) : option AccountRef :=
  match a with
  | None => None
  | Some (AddressRef "") => None
  | Some r => Some r
  end.

(** JavaScript truthiness of a [number | undefined] and of a
    [bigint | undefined]: [undefined] and zero are falsy. *)
Definition truthy_num (n : option Z) : option Z :=
  match n with
  | None => None
  | Some v => if v =? 0 then None else Some v
  end.

(** [a ?? b], and the default of a destructured property: the right-hand
    side is taken when the left-hand side is [undefined]. *)
Definition nullish {A} (a b : option A) : option A :=
  match a with
  | Some x => Some x
  | None => b
  end.

(* ------------------------------------------------------------------ *)
(** ** The action *)

Section SendCalls.

(** The four functions the action imports (lines 2, 19, 21, 22) are not
    part of the sources at hand; the action is verified for every
    behaviour they may have.  Each returns a value or throws. *)
Variable parseAccount : AccountRef -> Account.t.
Variable encodeFunctionData :
  Abi -> option string -> option Args -> Error + Hex.
Variable numberToHex : Numeric -> Error + Hex.
Variable getTransactionError : Error -> ErrorArgs.t -> Error.

(** Line 101: [call.chain?.id ?? call.chainId ?? chain?.id]. *)
Definition resolveChainId (chain : option Chain.t) (call : Call.t) : option Z :=
  nullish (option_map Chain.id (Call.chain call))
    (nullish (Call.chainId call) (option_map Chain.id chain)).

(** Lines 104-110. *)
Definition resolveData (call : Call.t) : M (option Hex) :=
  match Call.abi call with
  | Some abi =>
      emit (EncodeCall abi (Call.functionName call) (Call.args call)) ;;;
      d <- lift (encodeFunctionData abi (Call.functionName call) (Call.args call)) ;;
      ret (Some d)
  | None => ret (Call.data call)
  end.

(** Line 116: [call.value ? numberToHex(call.value) : undefined]. *)
Definition resolveValue (call : Call.t) : M (option Hex) :=
  match truthy_num (Call.value call) with
  | Some v => h <- lift (numberToHex (bigint v)) ;; ret (Some h)
  | None => ret None
  end.

(** The callback of [parameters.calls.map], lines 98-118. *)
Definition normalizeCall (chain : option Chain.t) (call : Call.t)
  : M NormalizedCall.t :=
  match truthy_num (resolveChainId chain call) with
  | None => throw ChainNotFoundError
  | Some chainId =>
      data <- resolveData call ;;
      chainId' <- lift (numberToHex (number chainId)) ;;
      value <- resolveValue call ;;
      ret (NormalizedCall.mk chainId' data (Call.to call) value)
  end.

(** [client.request(args, options)] *)
Definition request (client : Client.t) (args : RpcRequest.t)
    (options : RequestOptions.t) : M string :=
  emit (RequestCall args options) ;;;
  lift (Client.request client args options).

(** Line 128: [numberToHex(chain!.id)].  The [!] is erased by the
    compiler; reading [id] of [undefined] throws a [TypeError]. *)
Definition batchChainId (chain : option Chain.t) : M Hex :=
  match chain with
  | Some c => lift (numberToHex (number (Chain.id c)))
  | None => throw (TypeError "Cannot read properties of undefined (reading 'id')")
  end.

(** Lines 85-90: destructuring with defaults. *)
Definition resolveAccount (client : Client.t) (parameters : Parameters.t)
  : option AccountRef :=
  nullish (Parameters.account parameters)
    (option_map AccountObject (Client.account client)).

Definition resolveChain (client : Client.t) (parameters : Parameters.t)
  : option Chain.t :=
  nullish (Parameters.chain parameters) (Client.chain client).

Definition resolveVersion (parameters : Parameters.t) : string :=
  match Parameters.version parameters with
  | Some v => v
  | None => "1.0"
  end.

(** Lines 138-140. *)
Definition errorArgs (parameters : Parameters.t) (account : Account.t)
  : ErrorArgs.t :=
  ErrorArgs.mk account
    (Parameters.calls parameters)
    (Parameters.capabilities parameters)
    (Parameters.chain parameters)
    (Parameters.version parameters).

(** Lines 76-143. *)
Definition sendCalls (client : Client.t) (parameters : Parameters.t)
  : M string :=
  let account_ := resolveAccount client parameters in
  let capabilities := Parameters.capabilities parameters in
  let chain := resolveChain client parameters in
  let version := resolveVersion parameters in
  match truthy_account account_ with
  | None => throw (AccountNotFoundError "/experimental/eip5792/sendCalls")
  | Some account_ =>
      let account := parseAccount account_ in
      calls <- mapM (normalizeCall chain) (Parameters.calls parameters) ;;
      try_catch
        (chainId <- batchChainId chain ;;
         request client
           (RpcRequest.mk "wallet_sendCalls"
              [SendCallsParams.mk calls capabilities chainId
                 (Account.address account) version])
           (RequestOptions.mk 0))
        (fun err =>
           throw (getTransactionError err (errorArgs parameters account)))
  end.

(** The request assembled on lines 122-133. *)
Definition assembled (parameters : Parameters.t) (account : Account.t)
    (calls : list NormalizedCall.t) (chainId : Hex) : RpcRequest.t :=
  RpcRequest.mk "wallet_sendCalls"
    [SendCallsParams.mk calls (Parameters.capabilities parameters) chainId
       (Account.address account) (resolveVersion parameters)].

(** The claim on transfer amounts, as the specification words it: an
    absent amount stays absent, and a present amount (zero included)
    appears in hexadecimal form. *)
Definition value_presence_as_specified (chain : option Chain.t)
    (call : Call.t) : Prop :=
  forall l out, normalizeCall chain call = (l, inr out) ->
    (Call.value call = None -> NormalizedCall.value out = None) /\
    (forall v, Call.value call = Some v ->
       exists h, numberToHex (bigint v) = inr h /\
                 NormalizedCall.value out = Some h).

(** The claim on the translated error, as the specification words it:
    when the transport faults, the error handed back comes from
    [getTransactionError] with the resolved account and the resolved
    chain (the one the batch was built with). *)
Definition error_context_as_specified (client : Client.t)
    (parameters : Parameters.t) : Prop :=
  forall r o e,
    In (r, o) (requests (log (sendCalls client parameters))) ->
    Client.request client r o = inl e ->
    exists a args,
      truthy_account (resolveAccount client parameters) = Some a /\
      result (sendCalls client parameters) = inl (getTransactionError e args) /\
      ErrorArgs.account args = parseAccount a /\
      ErrorArgs.chain args = resolveChain client parameters.


End SendCalls.

(* ------------------------------------------------------------------ *)
(** ** Concrete collaborators and inputs used to run the embedding *)

(** Modelled from the spec: [parseAccount] ([accounts/utils/parseAccount.js])
    is not part of the sources at hand.  "Given an account reference
    (address or signer handle), produce a concrete account with an
    address": an address becomes a JSON-RPC account, an account object is
    returned as it is. *)
Definition parseAccount_spec (account : AccountRef) : Account.t :=
  match account with
  | AddressRef a => Account.mk a "json-rpc"
  | AccountObject acc => acc
  end.

(** Modelled from the spec: [getTransactionError]
    ([utils/errors/getTransactionError.js]) is not part of the sources at
    hand.  It "converts a raw dispatch failure into a domain transaction
    error, attaching the fully resolved invocation context": the result
    carries the cause and the arguments it was given. *)
Definition getTransactionError_spec (err : Error) (args : ErrorArgs.t) : Error :=
  TransactionExecutionError err args.

(** Modelled from the spec: [numberToHex] ([utils/encoding/toHex.js]) is
    not part of the sources at hand.  A small pure conversion utility:
    zero stays 0x0, it fails on negative input, and its output is the
    canonical lower-case hexadecimal text. *)
Definition numberToHex_spec (v : Numeric) : Error + Hex :=
  let n := match v with number n => n | bigint n => n end in
  if n <? 0
  then inl (Thrown "IntegerOutOfRangeError" "Number is not in safe integer range")
  else inr (HexString.of_Z n).

(** A stand-in encoder: it knows one function and rejects the rest. *)
Definition encodeFunctionData_stub (abi : Abi) (functionName : option string)
    (args : option Args) : Error + Hex :=
  match functionName with
  | Some "mint" => inr "0x1249c58b"
  | _ => inl (Thrown "AbiFunctionNotFoundError" "Function not found on ABI.")
  end.

Definition mainnet : Chain.t := Chain.mk 1 "Ethereum".
Definition optimism : Chain.t := Chain.mk 10 "OP Mainnet".

Definition alice : Address := "0xA0Cf798816D4b9b9866b5330EEa46a18382f251e".
Definition bob : Address := "0x70997970c51812dc3a010c7d01b50e0d17dc79c8".

Definition userRejected : Error :=
  Thrown "UserRejectedRequestError" "User rejected the request.".

(** A wallet that accepts every batch, and one that rejects every batch. *)
Definition acceptingWallet (_ : RpcRequest.t) (_ : RequestOptions.t)
  : Error + string := inr "0xdeadbeef".
Definition rejectingWallet (_ : RpcRequest.t) (_ : RequestOptions.t)
  : Error + string := inl userRejected.

(** A raw call without any chain of its own. *)
Definition rawCall (to : Address) (data : option Hex) (value : option Z)
  : Call.t :=
  Call.mk None None None None None data (Some to) value.

Definition withChainId (n : Z) (c : Call.t) : Call.t :=
  Call.mk (Call.chain c) (Some n) (Call.abi c) (Call.functionName c)
    (Call.args c) (Call.data c) (Call.to c) (Call.value c).

Definition withChain (d : Chain.t) (c : Call.t) : Call.t :=
  Call.mk (Some d) (Call.chainId c) (Call.abi c) (Call.functionName c)
    (Call.args c) (Call.data c) (Call.to c) (Call.value c).

(** A structured call without any chain of its own. *)
Definition contractCall (to : Address) (functionName : string) : Call.t :=
  Call.mk None None (Some ["function mint()"; "function burn()"])
    (Some functionName) (Some []) None (Some to) None.

(** The scenario of the documentation (lines 58-74): two calls sent through
    a client on mainnet. *)
Definition docClient : Client.t :=
  Client.mk None (Some mainnet) acceptingWallet.
Definition docParameters : Parameters.t :=
  Parameters.mk (Some (AddressRef alice))
    [rawCall bob (Some "0xdeadbeef") None; rawCall bob None (Some 69420)]
    None None None.

(** The action with the collaborators above plugged in. *)
Definition run : Client.t -> Parameters.t -> M string :=
  sendCalls parseAccount_spec encodeFunctionData_stub numberToHex_spec
    getTransactionError_spec.

(** The callback with the collaborators above plugged in. *)
Definition normalize : option Chain.t -> Call.t -> M NormalizedCall.t :=
  normalizeCall encodeFunctionData_stub numberToHex_spec.

(** A client without a chain, and a batch in which every call names its
    own chain: the first by a bare id, the second by a descriptor. *)
Definition chainlessClient : Client.t := Client.mk None None acceptingWallet.
Definition perCallChains : Parameters.t :=
  Parameters.mk (Some (AddressRef alice))
    [withChainId 1 (rawCall bob (Some "0xdeadbeef") None);
     withChain optimism (rawCall bob None (Some 69420))]
    None None None.


(** A client on mainnet whose wallet rejects the batch. *)
Definition rejectingClient : Client.t :=
  Client.mk None (Some mainnet) rejectingWallet.

(** The batch of the documentation with an explicit [chain] parameter. *)
Definition onOptimism : Parameters.t :=
  Parameters.mk (Some (AddressRef alice))
    [rawCall bob (Some "0xdeadbeef") None; rawCall bob None (Some 69420)]
    None (Some optimism) None.

(** A batch whose second call names a function the encoder rejects. *)
Definition burnParameters : Parameters.t :=
  Parameters.mk (Some (AddressRef alice))
    [contractCall bob "mint"; contractCall bob "burn"; rawCall bob None None]
    None None None.

(** A batch without an account. *)
Definition anonymousParameters : Parameters.t :=
  Parameters.mk None [contractCall bob "mint"] None None None.

(** A call that names both a chain descriptor and a bare chain id. *)
Definition bothChains : Call.t :=
  withChain optimism (withChainId 137 (rawCall bob None None)).

(** A value transfer of zero. *)
Definition zeroValue : Call.t := rawCall bob None (Some 0).

(** What the encoder is to be asked for a batch: one triple per call that
    carries an [abi] (line 104), in batch order. *)
Definition encoderInputs (calls : list Call.t)
  : list (Abi * option string * option Args) :=
  flat_map
    (fun call =>
       match Call.abi call with
       | Some abi => [(abi, Call.functionName call, Call.args call)]
       | None => []
       end)
    calls.

(** The events behind the entries of [encodings] and [requests]. *)
Definition encodeEvent (t : Abi * option string * option Args) : Event :=
  match t with (a, f, x) => EncodeCall a f x end.
Definition requestEvent (t : RpcRequest.t * RequestOptions.t) : Event :=
  RequestCall (fst t) (snd t).

(** The same parameters with another list of calls. *)
Definition withCalls (parameters : Parameters.t) (calls : list Call.t)
  : Parameters.t :=
  Parameters.mk (Parameters.account parameters) calls
    (Parameters.capabilities parameters) (Parameters.chain parameters)
    (Parameters.version parameters).

(** A batch without calls. *)
Definition emptyBatch : Parameters.t :=
  Parameters.mk (Some (AddressRef alice)) [] None None (Some "2.0.0").

(** A client with an account and a chain of its own. *)
Definition bobOnMainnet : Client.t :=
  Client.mk (Some (Account.mk bob "local")) (Some mainnet) acceptingWallet.

(** A client on a chain whose id [numberToHex_spec] rejects. *)
Definition negativeChain : Chain.t := Chain.mk (-5) "broken".
Definition brokenChainClient : Client.t :=
  Client.mk None (Some negativeChain) acceptingWallet.

(** A structured call that also carries raw [data]. *)
Definition mintWithData : Call.t :=
  Call.mk None (Some 1) (Some ["function mint()"]) (Some "mint") (Some [])
    (Some "0xffff") (Some bob) None.

(** The request of the documentation scenario. *)
Definition docRequest : RpcRequest.t :=
  RpcRequest.mk "wallet_sendCalls"
    [SendCallsParams.mk
       [NormalizedCall.mk "0x1" (Some "0xdeadbeef") (Some bob) None;
        NormalizedCall.mk "0x1" None (Some bob) (Some "0x10f2c")]
       None "0x1" alice "1.0"].

(** A batch whose second call names a chain id that [numberToHex_spec]
    rejects. *)
Definition negativeIdBatch : Parameters.t :=
  Parameters.mk (Some (AddressRef alice))
    [rawCall bob (Some "0xdeadbeef") None;
     withChainId (-1) (contractCall bob "mint");
     contractCall bob "mint"]
    None None None.

Definition integerOutOfRange : Error :=
  Thrown "IntegerOutOfRangeError" "Number is not in safe integer range".

Definition functionNotFound : Error :=
  Thrown "AbiFunctionNotFoundError" "Function not found on ABI.".



(* ------------------------------------------------------------------ *)
(** ** Properties *)

Section Properties.

Variable parseAccount : AccountRef -> Account.t.
Variable encodeFunctionData :
  Abi -> option string -> option Args -> Error + Hex.
Variable numberToHex : Numeric -> Error + Hex.
Variable getTransactionError : Error -> ErrorArgs.t -> Error.

Local Abbreviation resolveData := (resolveData encodeFunctionData).
Local Abbreviation resolveValue := (resolveValue numberToHex).
Local Abbreviation normalizeCall := (normalizeCall encodeFunctionData numberToHex).
Local Abbreviation batchChainId := (batchChainId numberToHex).
Local Abbreviation sendCalls :=
  (sendCalls parseAccount encodeFunctionData numberToHex getTransactionError).

(** ** The monad: inversion of [bind], logs of [mapM] *)

Lemma bind_ok {A B} (m : M A) (f : A -> M B) l b :
bind m f = (l, inr b) ->
exists l1 a l2, m = (l1, inr a) /\ f a = (l2, inr b) /\ l = l1 ++ l2.
Proof.
unfold bind. destruct m as [l1 [e | a]]; [discriminate |].
destruct (f a) as [l2 r] eqn:Hf. intros H. inversion H; subst.
exists l1, a, l2. auto.
Qed.

Lemma bind_throws {A B} (m : M A) (f : A -> M B) l e :
m = (l, inl e) -> bind m f = (l, inl e).
Proof. intros ->. reflexivity. Qed.

Lemma bind_continues {A B} (m : M A) (f : A -> M B) l a :
m = (l, inr a) -> bind m f = (l ++ fst (f a), snd (f a)).
Proof. intros ->. unfold bind. destruct (f a). reflexivity. Qed.

Lemma requests_app l1 l2 : requests (l1 ++ l2) = requests l1 ++ requests l2.
Proof.
induction l1 as [| [a f x | r o] l1 IH]; simpl; [reflexivity | assumption |].
now rewrite IH.
Qed.

(** Every computation either throws or returns. *)
Lemma run_cases {A} (m : M A) :
(exists l e, m = (l, inl e)) \/ (exists l a, m = (l, inr a)).
Proof. destruct m as [l [e | a]]; eauto. Qed.

Section Pointwise.
Context {A B : Type} (R : A -> B -> Prop).

Lemma Forall2_In_r xs ys y :
  Forall2 R xs ys -> In y ys -> exists x, In x xs /\ R x y.
Proof.
  induction 1 as [| x y' xs ys Hxy _ IH]; simpl; [tauto |].
  intros [<- | Hin]; [eauto |].
  destruct (IH Hin) as (x' & Hx' & HR). eauto.
Qed.

Lemma Forall2_nth_error_l xs ys i x :
  Forall2 R xs ys -> nth_error xs i = Some x ->
  exists y, nth_error ys i = Some y /\ R x y.
Proof.
  intros H. revert i. induction H as [| x' y' xs ys Hxy _ IH]; intros [| i]; simpl;
    try discriminate.
  - intros E; inversion E; subst. eauto.
  - apply IH.
Qed.
End Pointwise.

Section MapM.
Context {A B : Type} (f : A -> M B).

(** A successful [map] ran the callback successfully on every element,
position by position. *)
Lemma mapM_ok_Forall2 xs l ys :
mapM f xs = (l, inr ys) ->
Forall2 (fun x y => exists lx, f x = (lx, inr y)) xs ys.
Proof.
revert l ys. induction xs as [| x xs IH]; simpl; intros l ys H.
- inversion H. constructor.
- apply bind_ok in H as (l1 & y & l2 & Hx & H & _).
apply bind_ok in H as (l3 & ys' & l4 & Hxs & H & _).
inversion H; subst. constructor; eauto.
Qed.

(** When the callback throws [e] on an element and can throw nothing but
    [e] on the elements in front of it, [map] throws [e]. *)
Lemma mapM_first_throw pre x post lx e :
  Forall (fun y => forall e', result (f y) = inl e' -> e' = e) pre ->
  f x = (lx, inl e) ->
  result (mapM f (pre ++ x :: post)) = inl e.
Proof.
  intros Hpre Hx. induction Hpre as [| y pre Hy _ IH]; simpl.
  - now rewrite (bind_throws _ _ _ _ Hx).
  - destruct (run_cases (f y)) as [(ly & ey & Ey) | (ly & b & Ey)].
    + rewrite (bind_throws _ _ _ _ Ey). unfold result in *. simpl.
      f_equal. apply Hy. now rewrite Ey.
    + rewrite (bind_continues _ _ _ _ Ey). unfold result in *. simpl.
      destruct (mapM f (pre ++ x :: post)) as [l' [e' | ys]]; simpl in *.
      * assumption.
      * discriminate.
Qed.

(** When the callback throws on some element, [map] throws. *)
Lemma mapM_throws_In xs x lx e :
In x xs -> f x = (lx, inl e) -> exists e', result (mapM f xs) = inl e'.
Proof.
induction xs as [| y xs IH]; simpl; [tauto |]. intros Hin Hx.
destruct (run_cases (f y)) as [(ly & ey & Hy) | (ly & b & Hy)].
- rewrite (bind_throws _ _ _ _ Hy). unfold result. simpl. eauto.
- rewrite (bind_continues _ _ _ _ Hy). unfold result in *. simpl.
destruct Hin as [-> | Hin]; [congruence |].
destruct (IH Hin Hx) as [e' He'].
destruct (mapM f xs) as [l' [e'' | ys]]; simpl in *; [eauto | discriminate].
Qed.

(** A callback that never reaches the transport keeps [map] away from it. *)
Lemma mapM_requests xs :
(forall x, requests (log (f x)) = []) -> requests (log (mapM f xs)) = [].
Proof.
intros Hf. induction xs as [| x xs IH]; simpl; [reflexivity |].
specialize (Hf x). unfold log in *.
destruct (f x) as [lx [e | y]]; simpl in *; [assumption |].
destruct (mapM f xs) as [l' [e | ys]]; simpl in *;
rewrite ?app_nil_r, requests_app, Hf, IH; reflexivity.
Qed.
End MapM.

(** ** Facts about the callback and about the action *)

Lemma truthy_num_Some o v : truthy_num o = Some v -> o = Some v /\ v <> 0.
Proof.
  destruct o as [w |]; simpl; [| discriminate].
  destruct (Z.eqb_spec w 0); [discriminate |]. intros H; inversion H; subst. auto.
Qed.

Lemma truthy_num_None o : truthy_num o = None <-> o = None \/ o = Some 0.
Proof.
  destruct o as [w |]; simpl; [| tauto].
  destruct (Z.eqb_spec w 0); subst; split; intros H; auto; try discriminate.
  destruct H as [H | H]; [discriminate | inversion H; contradiction].
Qed.

(** What [resolveData] does, case by case. *)
Lemma resolveData_cases call :
  match Call.abi call with
  | None => resolveData call = ([], inr (Call.data call))
  | Some abi =>
      let ev := EncodeCall abi (Call.functionName call) (Call.args call) in
      match encodeFunctionData abi (Call.functionName call) (Call.args call) with
      | inl e => resolveData call = ([ev], inl e)
      | inr d => resolveData call = ([ev], inr (Some d))
      end
  end.
Proof.
  unfold resolveData. destruct (Call.abi call) as [abi |]; [| reflexivity].
  simpl. destruct (encodeFunctionData _ _ _); reflexivity.
Qed.

(** What [resolveValue] does, case by case. *)
Lemma resolveValue_cases call :
  match truthy_num (Call.value call) with
  | None => resolveValue call = ([], inr None)
  | Some v =>
      match numberToHex (bigint v) with
      | inl e => resolveValue call = ([], inl e)
      | inr h => resolveValue call = ([], inr (Some h))
      end
  end.
Proof.
  unfold resolveValue. destruct (truthy_num _); [| reflexivity].
  simpl. destruct (numberToHex _); reflexivity.
Qed.

(** A successful run of the callback, taken apart. *)
Lemma normalizeCall_ok chain call l out :
  normalizeCall chain call = (l, inr out) ->
  exists n h d v,
    truthy_num (resolveChainId chain call) = Some n /\
    numberToHex (number n) = inr h /\
    resolveData call = (l, inr d) /\
    resolveValue call = ([], inr v) /\
    out = NormalizedCall.mk h d (Call.to call) v.
Proof.
  unfold normalizeCall.
  destruct (truthy_num (resolveChainId chain call)) as [n |]; [| discriminate].
  intros H.
  apply bind_ok in H as (l1 & d & l2 & Hd & H & ->).
  apply bind_ok in H as (l3 & h & l4 & Hh & H & ->).
  apply bind_ok in H as (l5 & v & l6 & Hv & H & ->).
  inversion H; subst. inversion Hh; subst.
  pose proof (resolveValue_cases call) as Hc.
  destruct (truthy_num (Call.value call)) as [w |].
  - destruct (numberToHex (bigint w)); rewrite Hc in Hv; inversion Hv; subst.
    exists n, h, d, (Some h0). rewrite !app_nil_r. auto.
  - rewrite Hc in Hv; inversion Hv; subst.
    exists n, h, d, None. rewrite !app_nil_r. auto.
Qed.

(** The log of the callback holds at most the one encoder invocation of
    its call, and nothing else. *)
Lemma normalizeCall_log chain call :
  log (normalizeCall chain call) = [] \/
  exists abi, Call.abi call = Some abi /\
    log (normalizeCall chain call)
    = [EncodeCall abi (Call.functionName call) (Call.args call)].
Proof.
  unfold normalizeCall, log.
  destruct (truthy_num (resolveChainId chain call)) as [n |]; [| now left].
  pose proof (resolveData_cases call) as Hd.
  pose proof (resolveValue_cases call) as Hv.
  destruct (Call.abi call) as [abi |].
  - right. exists abi. split; [reflexivity |]. simpl in Hd.
    destruct (encodeFunctionData abi _ _); rewrite Hd; [reflexivity |].
    simpl. destruct (numberToHex (number n)); [reflexivity |].
    simpl. destruct (truthy_num (Call.value call)) as [w |];
      [destruct (numberToHex (bigint w)) |]; rewrite Hv; reflexivity.
  - left. rewrite Hd. simpl. destruct (numberToHex (number n)); [reflexivity |].
    simpl. destruct (truthy_num (Call.value call)) as [w |];
      [destruct (numberToHex (bigint w)) |]; rewrite Hv; reflexivity.
Qed.

Lemma normalizeCall_requests chain call :
  requests (log (normalizeCall chain call)) = [].
Proof.
  destruct (normalizeCall_log chain call) as [-> | (abi & _ & ->)]; reflexivity.
Qed.

(** Every path through [sendCalls], with its log and its outcome. *)
Lemma sendCalls_paths client parameters :
  sendCalls client parameters =
  match truthy_account (resolveAccount client parameters) with
  | None => ([], inl (AccountNotFoundError "/experimental/eip5792/sendCalls"))
  | Some a =>
      let account := parseAccount a in
      let wrap e := getTransactionError e (errorArgs parameters account) in
      match mapM (normalizeCall (resolveChain client parameters))
              (Parameters.calls parameters) with
      | (l, inl e) => (l, inl e)
      | (l, inr calls) =>
          match resolveChain client parameters with
          | None =>
              (l, inl (wrap (TypeError
                 "Cannot read properties of undefined (reading 'id')")))
          | Some c =>
              match numberToHex (number (Chain.id c)) with
              | inl e => (l, inl (wrap e))
              | inr h =>
                  let r := assembled parameters account calls h in
                  let o := RequestOptions.mk 0 in
                  (l ++ [RequestCall r o],
                   match Client.request client r o with
                   | inl e => inl (wrap e)
                   | inr id => inr id
                   end)
              end
          end
      end
  end.
Proof.
  unfold sendCalls.
  destruct (truthy_account _) as [a |]; [| reflexivity].
  destruct (mapM _ _) as [l [e | calls]]; [reflexivity |].
  unfold bind, try_catch, batchChainId, request, assembled; simpl.
  destruct (resolveChain client parameters) as [c |]; simpl;
    [| now rewrite app_nil_r].
  destruct (numberToHex (number (Chain.id c))) as [e | h]; simpl;
    [now rewrite app_nil_r |].
  destruct (Client.request client _ _); simpl; now rewrite ?app_nil_r.
Qed.

(** The transport is reached at most once, at the very end, with the
    request assembled from the normalized calls. *)
Lemma sendCalls_requests client parameters :
  requests (log (sendCalls client parameters)) = [] \/
  exists a l calls c h,
    truthy_account (resolveAccount client parameters) = Some a /\
    mapM (normalizeCall (resolveChain client parameters))
      (Parameters.calls parameters) = (l, inr calls) /\
    resolveChain client parameters = Some c /\
    numberToHex (number (Chain.id c)) = inr h /\
    requests (log (sendCalls client parameters))
    = [(assembled parameters (parseAccount a) calls h, RequestOptions.mk 0)] /\
    result (sendCalls client parameters)
    = match Client.request client
              (assembled parameters (parseAccount a) calls h)
              (RequestOptions.mk 0) with
      | inl e => inl (getTransactionError e (errorArgs parameters (parseAccount a)))
      | inr id => inr id
      end.
Proof.
  rewrite sendCalls_paths.
  destruct (truthy_account _) as [a |] eqn:Ha; [| now left].
  pose proof (mapM_requests (normalizeCall (resolveChain client parameters))
                (Parameters.calls parameters)
                (normalizeCall_requests _)) as Hl.
  destruct (mapM _ _) as [l [e | calls]] eqn:Hm; [now left |].
  unfold log in Hl; simpl in Hl.
  destruct (resolveChain client parameters) as [c |] eqn:Hc; [| now left].
  destruct (numberToHex (number (Chain.id c))) as [e | h] eqn:Hh; [now left |].
  right. exists a, l, calls, c, h. unfold log, result; simpl.
  rewrite requests_app, Hl. auto 10.
Qed.

(** An encoder invocation that fails ends the callback with that very
    error. *)
Lemma normalizeCall_encoding_failure chain call a f x e :
  In (EncodeCall a f x) (log (normalizeCall chain call)) ->
  encodeFunctionData a f x = inl e ->
  normalizeCall chain call = ([EncodeCall a f x], inl e).
Proof.
  intros Hin He.
  destruct (normalizeCall_log chain call) as [H | (abi & Habi & H)];
    rewrite H in Hin; simpl in Hin; [contradiction |].
  destruct Hin as [Hin | []]. inversion Hin; subst. clear Hin.
  unfold normalizeCall in *.
  destruct (truthy_num (resolveChainId chain call)) as [n |]; [| discriminate].
  pose proof (resolveData_cases call) as Hd. rewrite Habi in Hd. simpl in Hd.
  rewrite He in Hd. rewrite Hd. reflexivity.
Qed.

Lemma mapM_encoding_failure chain calls a f x e :
  In (EncodeCall a f x) (log (mapM (normalizeCall chain) calls)) ->
  encodeFunctionData a f x = inl e ->
  result (mapM (normalizeCall chain) calls) = inl e.
Proof.
  intros Hin He. induction calls as [| c calls IH]; simpl in *; [contradiction |].
  destruct (run_cases (normalizeCall chain c)) as [(lc & ec & Hc) | (lc & n & Hc)].
  - rewrite (bind_throws _ _ _ _ Hc) in *. unfold log, result in *. simpl in *.
    assert (Hin' : In (EncodeCall a f x) (log (normalizeCall chain c)))
      by (rewrite Hc; exact Hin).
    rewrite (normalizeCall_encoding_failure _ _ _ _ _ _ Hin' He) in Hc.
    congruence.
  - rewrite (bind_continues _ _ _ _ Hc) in *. unfold log, result in *. simpl in *.
    apply in_app_or in Hin as [Hin | Hin].
    + assert (Hin' : In (EncodeCall a f x) (log (normalizeCall chain c)))
        by (rewrite Hc; exact Hin).
      rewrite (normalizeCall_encoding_failure _ _ _ _ _ _ Hin' He) in Hc.
      discriminate.
    + destruct (mapM (normalizeCall chain) calls) as [l' [e' | ys]]; simpl in *.
      * apply IH. assumption.
      * rewrite app_nil_r in Hin. specialize (IH Hin). discriminate.
Qed.

(** When the chain id of a call resolves to a number other than 0 that
    [numberToHex] accepts, and neither the encoder nor the conversion of
    the amount throws, the callback returns, with the converted id. *)
Lemma normalizeCall_returns chain call n h :
  resolveChainId chain call = Some n ->
  n <> 0 ->
  numberToHex (number n) = inr h ->
  (forall abi, Call.abi call = Some abi ->
     exists d, encodeFunctionData abi (Call.functionName call) (Call.args call)
               = inr d) ->
  (forall v, Call.value call = Some v -> v <> 0 ->
     exists hv, numberToHex (bigint v) = inr hv) ->
  exists l d v,
    normalizeCall chain call = (l, inr (NormalizedCall.mk h d (Call.to call) v)).
Proof.
  intros Hn Hn0 Hh Henc Hval. unfold normalizeCall. rewrite Hn. simpl.
  destruct (Z.eqb_spec n 0) as [| _]; [contradiction |].
  pose proof (resolveData_cases call) as Hd.
  pose proof (resolveValue_cases call) as Hv.
  assert (Hdata : exists l d, resolveData call = (l, inr d)).
  { destruct (Call.abi call) as [abi |]; [| eauto].
    destruct (Henc abi eq_refl) as [d Hd']. simpl in Hd. rewrite Hd' in Hd. eauto. }
  assert (Hvalue : exists v, resolveValue call = ([], inr v)).
  { destruct (truthy_num (Call.value call)) as [w |] eqn:Hw; [| eauto].
    apply truthy_num_Some in Hw as [Hw Hw0].
    destruct (Hval w Hw Hw0) as [hv Hhv]. rewrite Hhv in Hv. eauto. }
  destruct Hdata as (l & d & ->). destruct Hvalue as (v & Hvalue).
  exists l, d, v. simpl. rewrite Hh. simpl. rewrite Hvalue. simpl.
  now rewrite !app_nil_r.
Qed.

(* ------------------------------------------------------------------ *)
(** ** The claims *)

(** C1.  Without a batch-level chain (none in the parameters, none on the
    client) [sendCalls] never reaches the transport and always throws.
    When an account is present and every call was normalized with its own
    chain, what is thrown is the [TypeError] of line 128 ([chain!.id] on
    [undefined]) after it went through [getTransactionError]. *)
Theorem no_batch_chain_never_dispatches client parameters :
  resolveChain client parameters = None ->
  (exists e, result (sendCalls client parameters) = inl e) /\
  requests (log (sendCalls client parameters)) = [] /\
  (forall a l calls,
     truthy_account (resolveAccount client parameters) = Some a ->
     mapM (normalizeCall None) (Parameters.calls parameters) = (l, inr calls) ->
     sendCalls client parameters
     = (l, inl (getTransactionError
                  (TypeError "Cannot read properties of undefined (reading 'id')")
                  (errorArgs parameters (parseAccount a))))).
Proof.
  intros Hc. repeat split.
  - rewrite sendCalls_paths, Hc. unfold result.
    destruct (truthy_account _); simpl; [| eauto].
    destruct (mapM _ _) as [l [e | calls]]; simpl; eauto.
  - destruct (sendCalls_requests client parameters)
      as [H | (a & l & calls & c & h & _ & _ & Hc' & _)]; [assumption | congruence].
  - intros a l calls Ha Hm. rewrite sendCalls_paths, Ha, Hc, Hm. reflexivity.
Qed.

(** C2, amended.  In a normalized call [value] is absent exactly when the
    call's amount is absent or zero; a present amount other than zero
    appears in hexadecimal form. *)
Theorem value_present_iff_nonzero chain call l out :
  normalizeCall chain call = (l, inr out) ->
  (NormalizedCall.value out = None <->
   Call.value call = None \/ Call.value call = Some 0) /\
  (forall v, Call.value call = Some v -> v <> 0 ->
     exists h, numberToHex (bigint v) = inr h /\
               NormalizedCall.value out = Some h).
Proof.
  intros H.
  apply normalizeCall_ok in H as (n & h & d & v & _ & _ & _ & Hv & ->). simpl.
  pose proof (resolveValue_cases call) as Hc.
  destruct (truthy_num (Call.value call)) as [w |] eqn:Hw.
  - apply truthy_num_Some in Hw as [Hw Hw0].
    destruct (numberToHex (bigint w)) as [e | hw] eqn:Hh;
      rewrite Hc in Hv; inversion Hv; subst.
    split.
    + split; [discriminate |]. rewrite Hw. intros [E | E]; inversion E; contradiction.
    + intros v' Hv' _. rewrite Hw in Hv'. inversion Hv'; subst. eauto.
  - rewrite Hc in Hv; inversion Hv; subst.
    apply truthy_num_None in Hw. split.
    + tauto.
    + intros v' Hv' Hv0. destruct Hw as [Hw | Hw]; rewrite Hw in Hv';
        [discriminate | inversion Hv'; subst; contradiction].
Qed.

(** C3, amended.  When the transport faults, [sendCalls] throws what
    [getTransactionError] makes of the fault and of a context that is the
    original parameters ([calls], [capabilities], [version] as passed) with
    [account] replaced by the resolved account and [chain] set to the
    [chain] parameter as the caller passed it; that is the resolved chain
    whenever the caller passed one. *)
Theorem dispatch_failure_is_translated client parameters r o e :
  In (r, o) (requests (log (sendCalls client parameters))) ->
  Client.request client r o = inl e ->
  exists a args,
    truthy_account (resolveAccount client parameters) = Some a /\
    result (sendCalls client parameters) = inl (getTransactionError e args) /\
    ErrorArgs.account args = parseAccount a /\
    ErrorArgs.chain args = Parameters.chain parameters /\
    ErrorArgs.calls args = Parameters.calls parameters /\
    ErrorArgs.capabilities args = Parameters.capabilities parameters /\
    ErrorArgs.version args = Parameters.version parameters /\
    (Parameters.chain parameters <> None ->
     ErrorArgs.chain args = resolveChain client parameters).
Proof.
  intros Hin Hreq.
  destruct (sendCalls_requests client parameters)
    as [H | (a & l & calls & c & h & Ha & _ & _ & _ & H & Hres)];
    rewrite H in Hin; simpl in Hin; [contradiction |].
  destruct Hin as [E | []]. inversion E; subst. clear E.
  rewrite Hreq in Hres.
  exists a, (errorArgs parameters (parseAccount a)). simpl.
  repeat split; try assumption.
  unfold resolveChain. destruct (Parameters.chain parameters); [reflexivity | contradiction].
Qed.

(** C4.  The chain id of a call is the id of the call's chain descriptor
    when there is one (also when the call has a bare chain id as well),
    otherwise the call's bare chain id when there is one, otherwise the id
    of the batch-level chain.  The callback works with that number: when
    it is not 0, [numberToHex] accepts it and neither the encoder nor the
    conversion of the amount throws, the callback returns a call whose
    [chainId] is its hexadecimal form; in particular a call with a
    descriptor and a bare id is returned with the descriptor's id.  And
    whenever the callback returns, [chainId] is the hexadecimal form of
    the resolved number. *)
Theorem chain_id_precedence chain call :
  (forall d, Call.chain call = Some d ->
     resolveChainId chain call = Some (Chain.id d)) /\
  (forall n, Call.chain call = None -> Call.chainId call = Some n ->
     resolveChainId chain call = Some n) /\
  (Call.chain call = None -> Call.chainId call = None ->
     resolveChainId chain call = option_map Chain.id chain) /\
  (forall l out, normalizeCall chain call = (l, inr out) ->
     exists n, resolveChainId chain call = Some n /\
               numberToHex (number n) = inr (NormalizedCall.chainId out)) /\
  (forall n h,
     resolveChainId chain call = Some n ->
     n <> 0 ->
     numberToHex (number n) = inr h ->
     (forall abi, Call.abi call = Some abi ->
        exists d, encodeFunctionData abi (Call.functionName call) (Call.args call)
                  = inr d) ->
     (forall v, Call.value call = Some v -> v <> 0 ->
        exists hv, numberToHex (bigint v) = inr hv) ->
     exists l out, normalizeCall chain call = (l, inr out) /\
                   NormalizedCall.chainId out = h) /\
  (forall d h,
     Call.chain call = Some d ->
     Chain.id d <> 0 ->
     numberToHex (number (Chain.id d)) = inr h ->
     (forall abi, Call.abi call = Some abi ->
        exists d', encodeFunctionData abi (Call.functionName call) (Call.args call)
                   = inr d') ->
     (forall v, Call.value call = Some v -> v <> 0 ->
        exists hv, numberToHex (bigint v) = inr hv) ->
     exists l out, normalizeCall chain call = (l, inr out) /\
                   NormalizedCall.chainId out = h).
Proof.
  assert (Hdesc : forall d, Call.chain call = Some d ->
                    resolveChainId chain call = Some (Chain.id d)).
  { unfold resolveChainId. intros d ->. reflexivity. }
  assert (Hret : forall n h,
             resolveChainId chain call = Some n -> n <> 0 ->
             numberToHex (number n) = inr h ->
             (forall abi, Call.abi call = Some abi ->
                exists d, encodeFunctionData abi (Call.functionName call)
                            (Call.args call) = inr d) ->
             (forall v, Call.value call = Some v -> v <> 0 ->
                exists hv, numberToHex (bigint v) = inr hv) ->
             exists l out, normalizeCall chain call = (l, inr out) /\
                           NormalizedCall.chainId out = h).
  { intros n h Hn Hn0 Hh Henc Hval.
    destruct (normalizeCall_returns chain call n h Hn Hn0 Hh Henc Hval)
      as (l & d & v & H).
    exists l, (NormalizedCall.mk h d (Call.to call) v). auto. }
  split; [exact Hdesc |].
  split; [unfold resolveChainId; intros n -> ->; reflexivity |].
  split; [unfold resolveChainId; intros -> ->; reflexivity |].
  split.
  - intros l out H.
    apply normalizeCall_ok in H as (n & h & d & v & Hn & Hh & _ & _ & ->).
    apply truthy_num_Some in Hn as [Hn _]. exists n. auto.
  - split; [exact Hret |].
    intros d h Hd. apply Hret. apply Hdesc. assumption.
Qed.

(** C5.  With no [account] parameter and no account on the client,
    [sendCalls] throws [AccountNotFoundError] with an empty log: no call
    was normalized, the encoder and the transport were never invoked. *)
Theorem account_missing_throws_first client parameters :
  Parameters.account parameters = None ->
  Client.account client = None ->
  sendCalls client parameters
  = ([], inl (AccountNotFoundError "/experimental/eip5792/sendCalls")) /\
  encodings (log (sendCalls client parameters)) = [] /\
  requests (log (sendCalls client parameters)) = [].
Proof.
  intros Hp Hc. rewrite sendCalls_paths.
  unfold resolveAccount. rewrite Hp, Hc. simpl. auto.
Qed.


(** C7.  A successful [map] returns as many normalized calls as there are
    calls; the one at index [i] is what the callback returns on the call
    at index [i] (given the batch-level chain), so batches that agree at
    an index produce the same normalized call there; and the list is what
    a dispatched request carries, in that order. *)
Theorem normalization_is_pointwise chain calls l out :
  mapM (normalizeCall chain) calls = (l, inr out) ->
  List.length out = List.length calls /\
  (forall i call, nth_error calls i = Some call ->
     exists li n, normalizeCall chain call = (li, inr n) /\
                  nth_error out i = Some n) /\
  (forall calls' l' out' i call,
     mapM (normalizeCall chain) calls' = (l', inr out') ->
     nth_error calls i = Some call -> nth_error calls' i = Some call ->
     nth_error out' i = nth_error out i) /\
  (forall client parameters r o p,
     resolveChain client parameters = chain ->
     Parameters.calls parameters = calls ->
     In (r, o) (requests (log (sendCalls client parameters))) ->
     In p (RpcRequest.params r) ->
     SendCallsParams.calls p = out).
Proof.
  intros H. apply mapM_ok_Forall2 in H as HF.
  assert (Hnth : forall xs ys i call,
             Forall2 (fun x y => exists lx, normalizeCall chain x = (lx, inr y)) xs ys ->
             nth_error xs i = Some call ->
             exists li n, normalizeCall chain call = (li, inr n) /\
                          nth_error ys i = Some n).
  { intros xs ys i call HF' Hi.
    destruct (Forall2_nth_error_l _ _ _ _ _ HF' Hi) as (n & Hn & li & Hc). eauto. }
  split; [symmetry; eapply Forall2_length; eassumption |].
  split; [intros i call; apply Hnth; assumption |].
  split.
  - intros calls' l' out' i call H' Hi Hi'.
    apply mapM_ok_Forall2 in H'.
    destruct (Hnth _ _ _ _ HF Hi) as (l1 & n1 & Hc1 & ->).
    destruct (Hnth _ _ _ _ H' Hi') as (l2 & n2 & Hc2 & ->).
    congruence.
  - intros client parameters r o p Hchain Hcalls Hr Hp.
    destruct (sendCalls_requests client parameters)
      as [E | (a & l' & calls' & c & h & _ & Hm & _ & _ & E & _)];
      rewrite E in Hr; simpl in Hr; [contradiction |].
    destruct Hr as [Hr | []]. inversion Hr; subst r o. clear Hr.
    simpl in Hp. destruct Hp as [<- | []]. simpl.
    rewrite Hchain, Hcalls, H in Hm. congruence.
Qed.

(** C8.  Whenever the encoder is invoked on a structured call and fails,
    [sendCalls] throws exactly the encoder's error (it does not pass
    through [getTransactionError]) and the transport is not invoked. *)
Theorem encoding_failure_propagates client parameters abi functionName args e :
  In (EncodeCall abi functionName args) (log (sendCalls client parameters)) ->
  encodeFunctionData abi functionName args = inl e ->
  result (sendCalls client parameters) = inl e /\
  requests (log (sendCalls client parameters)) = [].
Proof.
  intros Hin He.
  assert (Hm : exists a,
             truthy_account (resolveAccount client parameters) = Some a /\
             result (mapM (normalizeCall (resolveChain client parameters))
                       (Parameters.calls parameters)) = inl e).
  { rewrite sendCalls_paths in Hin.
    destruct (truthy_account _) as [a |]; [| contradiction].
    exists a. split; [reflexivity |].
    apply mapM_encoding_failure with (a := abi) (f := functionName) (x := args);
      [| assumption].
    unfold log in *.
    destruct (mapM _ _) as [l [e' | calls]]; simpl in *; [assumption |].
    destruct (resolveChain client parameters) as [c |]; simpl in *; [| assumption].
    destruct (numberToHex (number (Chain.id c))); simpl in *; [assumption |].
    apply in_app_or in Hin as [Hin | [Hin | []]]; [assumption | discriminate]. }
  destruct Hm as (a & Ha & Hm). unfold result in Hm. split.
  - rewrite sendCalls_paths, Ha.
    destruct (mapM _ _) as [l [e' | calls]]; simpl in *;
      [inversion Hm; reflexivity | discriminate].
  - destruct (sendCalls_requests client parameters)
      as [H | (a' & l & calls & c & h & _ & Hm' & _)]; [assumption |].
    rewrite Hm' in Hm. discriminate.
Qed.

(** C9.  Every request handed to the transport carries [retryCount: 0];
    the transport is invoked at most once per invocation of [sendCalls];
    and when it faults, that one attempt is the only one and the fault is
    handed to [getTransactionError]. *)
Theorem single_attempt_without_retry client parameters :
  (forall r o, In (r, o) (requests (log (sendCalls client parameters))) ->
     RequestOptions.retryCount o = 0) /\
  (List.length (requests (log (sendCalls client parameters))) <= 1)%nat /\
  (forall r o e,
     In (r, o) (requests (log (sendCalls client parameters))) ->
     Client.request client r o = inl e ->
     requests (log (sendCalls client parameters)) = [(r, o)] /\
     exists args, result (sendCalls client parameters)
                  = inl (getTransactionError e args)).
Proof.
  destruct (sendCalls_requests client parameters)
    as [H | (a & l & calls & c & h & _ & _ & _ & _ & H & Hres)]; rewrite H.
  - simpl. split; [| split]; [intros r o [] | lia | intros r o e []].
  - simpl. split; [| split; [| intros r o e Hin Hreq; split; revert r o e Hin Hreq]].
    + intros r o [E | []]. inversion E; subst. reflexivity.
    + lia.
    + intros r o e [E | []] _. now rewrite E.
    + intros r o e [E | []] Hreq. inversion E; subst.
      rewrite Hres, Hreq. eauto.
Qed.

(** C10.  A call whose chain id resolves to 0 makes the callback throw
    [ChainNotFoundError] before anything else happens, whether the 0 is
    the id of the call's chain descriptor, the call's bare chain id or the
    id of the batch-level chain; hence every call of a request that
    reaches the transport carries the hexadecimal form of a chain id other
    than 0. *)
Theorem chain_id_zero_is_missing chain call :
  (resolveChainId chain call = Some 0 ->
   normalizeCall chain call = ([], inl ChainNotFoundError)) /\
  (forall d, Call.chain call = Some d -> Chain.id d = 0 ->
   normalizeCall chain call = ([], inl ChainNotFoundError)) /\
  (Call.chain call = None -> Call.chainId call = Some 0 ->
   normalizeCall chain call = ([], inl ChainNotFoundError)) /\
  (forall d, Call.chain call = None -> Call.chainId call = None ->
   chain = Some d -> Chain.id d = 0 ->
   normalizeCall chain call = ([], inl ChainNotFoundError)) /\
  (forall client parameters r o p nc,
     In (r, o) (requests (log (sendCalls client parameters))) ->
     In p (RpcRequest.params r) ->
     In nc (SendCallsParams.calls p) ->
     exists n, n <> 0 /\ numberToHex (number n) = inr (NormalizedCall.chainId nc)).
Proof.
  assert (Hzero : resolveChainId chain call = Some 0 ->
                  normalizeCall chain call = ([], inl ChainNotFoundError)).
  { intros H. unfold normalizeCall. now rewrite H. }
  split; [exact Hzero |].
  split; [intros d Hd Hid; apply Hzero; unfold resolveChainId;
          rewrite Hd; simpl; now rewrite Hid |].
  split; [intros Hd Hn; apply Hzero; unfold resolveChainId;
          now rewrite Hd, Hn |].
  split; [intros d Hd Hn -> Hid; apply Hzero; unfold resolveChainId;
          rewrite Hd, Hn; simpl; now rewrite Hid |].
  intros client parameters r o p nc Hr Hp Hnc.
  destruct (sendCalls_requests client parameters)
    as [H | (a & l & calls & c & h & _ & Hm & _ & _ & H & _)];
    rewrite H in Hr; simpl in Hr; [contradiction |].
  destruct Hr as [Hr | []]. inversion Hr; subst. clear Hr H.
  simpl in Hp. destruct Hp as [<- | []]. simpl in Hnc.
  apply mapM_ok_Forall2 in Hm.
  destruct (Forall2_In_r _ _ _ _ Hm Hnc) as (x & _ & lx & Hx).
  apply normalizeCall_ok in Hx as (n & h' & d & v & Hn & Hh & _ & _ & ->).
  apply truthy_num_Some in Hn as [_ Hn]. exists n. auto.
Qed.

(* ------------------------------------------------------------------ *)
(** ** Further properties of the action *)

(** A log without requests consists of encoder invocations. *)
Lemma log_without_requests l :
  requests l = [] ->
  l = map encodeEvent (encodings l).
Proof.
  induction l as [| [a f x | r o] l IH]; simpl; intros H.
  - reflexivity.
  - f_equal. apply IH. assumption.
  - discriminate.
Qed.

Lemma encodings_app l1 l2 : encodings (l1 ++ l2) = encodings l1 ++ encodings l2.
Proof.
  induction l1 as [| [a f x | r o] l1 IH]; simpl; [reflexivity | | assumption].
  now rewrite IH.
Qed.

(** When [map] throws, the callback threw that error on one of the
    elements. *)
Lemma mapM_throw_origin {A B} (f : A -> M B) xs e :
  result (mapM f xs) = inl e -> exists x, In x xs /\ result (f x) = inl e.
Proof.
  unfold result. induction xs as [| x xs IH]; simpl; [discriminate |].
  destruct (f x) as [lx [ex | y]] eqn:Hx; simpl.
  - intros H; inversion H; subst. exists x. rewrite Hx. auto.
  - destruct (mapM f xs) as [l' [e' | ys]]; simpl in *; [| discriminate].
    intros H. destruct (IH H) as (x' & Hin & Hx'). eauto.
Qed.

(** Once the callback throws on an element, the elements behind it do not
    matter. *)
Lemma mapM_suffix_irrelevant {A B} (f : A -> M B) pre x post post' e :
  result (f x) = inl e ->
  mapM f (pre ++ x :: post) = mapM f (pre ++ x :: post').
Proof.
  intros Hx. induction pre as [| y pre IH]; simpl.
  - unfold result in Hx. destruct (f x) as [lx [ex | b]]; simpl in *;
      [reflexivity | discriminate].
  - now rewrite IH.
Qed.

Lemma encoderInputs_cons c calls :
  encoderInputs (c :: calls) = encoderInputs [c] ++ encoderInputs calls.
Proof. unfold encoderInputs. simpl. now rewrite app_nil_r. Qed.

(** The encoder invocations of one run of the callback. *)
Lemma normalizeCall_encodings chain call :
  encodings (log (normalizeCall chain call))
  = match truthy_num (resolveChainId chain call) with
    | Some _ => encoderInputs [call]
    | None => []
    end.
Proof.
  unfold encoderInputs. simpl. rewrite app_nil_r.
  destruct (normalizeCall_log chain call) as [H | (abi & Habi & H)].
  - rewrite H. simpl.
    destruct (truthy_num (resolveChainId chain call)) as [n |] eqn:Hn;
      [| reflexivity].
    destruct (Call.abi call) as [abi |] eqn:Habi; [| reflexivity].
    exfalso. unfold normalizeCall, log in H. rewrite Hn in H.
    pose proof (resolveData_cases call) as Hd. rewrite Habi in Hd. simpl in Hd.
    destruct (encodeFunctionData abi _ _); rewrite Hd in H; simpl in H;
      [discriminate |].
    destruct (numberToHex (number n)); simpl in H; [discriminate |].
    destruct (resolveValue call) as [lv [ev | v]]; discriminate.
  - rewrite H, Habi. simpl.
    destruct (truthy_num (resolveChainId chain call)) as [n |] eqn:Hn;
      [reflexivity |].
    exfalso. unfold normalizeCall, log in H. rewrite Hn in H. discriminate.
Qed.

(** The encoder invocations of [map]: a prefix of what the batch asks for,
    and all of it when [map] returns. *)
Lemma mapM_encodings chain calls :
  exists rest,
    encoderInputs calls
    = encodings (log (mapM (normalizeCall chain) calls)) ++ rest /\
    (forall l out, mapM (normalizeCall chain) calls = (l, inr out) -> rest = []).
Proof.
  induction calls as [| c calls (rest & IH & IHok)].
  - exists []. split; [reflexivity | auto].
  - pose proof (normalizeCall_encodings chain c) as Hc.
    rewrite encoderInputs_cons.
    remember (encoderInputs [c]) as one eqn:Hone. clear Hone.
    remember (encoderInputs calls) as others eqn:Hothers. clear Hothers.
    simpl mapM. unfold log in *.
    destruct (normalizeCall chain c) as [lc [ec | n]] eqn:Hn; simpl in *.
    + destruct (truthy_num (resolveChainId chain c)).
      * exists others. rewrite Hc. split; [reflexivity | discriminate].
      * exists (one ++ others). rewrite Hc. split; [reflexivity | discriminate].
    + apply normalizeCall_ok in Hn as (k & _ & _ & _ & Hk & _).
      rewrite Hk in Hc.
      destruct (mapM (normalizeCall chain) calls) as [l' [e' | ys]] eqn:Hm;
        simpl in *.
      * exists rest. rewrite encodings_app, Hc, IH, app_assoc.
        split; [reflexivity | discriminate].
      * exists rest. rewrite app_nil_r, encodings_app, Hc, IH, app_assoc.
        split; [reflexivity |]. intros _ _ _. eapply IHok. reflexivity.
Qed.

(** X1.  The wallet is asked exactly when an account is present, every
    call was normalized, there is a batch-level chain and its id was
    converted. *)
Theorem dispatch_condition client parameters :
  (exists r o, In (r, o) (requests (log (sendCalls client parameters)))) <->
  (exists a l calls c h,
     truthy_account (resolveAccount client parameters) = Some a /\
     mapM (normalizeCall (resolveChain client parameters))
       (Parameters.calls parameters) = (l, inr calls) /\
     resolveChain client parameters = Some c /\
     numberToHex (number (Chain.id c)) = inr h).
Proof.
  split.
  - intros (r & o & Hin).
    destruct (sendCalls_requests client parameters)
      as [H | (a & l & calls & c & h & Ha & Hm & Hc & Hh & _)].
    + rewrite H in Hin. contradiction.
    + exists a, l, calls, c, h. auto.
  - intros (a & l & calls & c & h & Ha & Hm & Hc & Hh).
    exists (assembled parameters (parseAccount a) calls h), (RequestOptions.mk 0).
    rewrite sendCalls_paths, Ha, Hm, Hc, Hh. unfold log. simpl.
    rewrite requests_app. apply in_or_app. right. simpl. auto.
Qed.

(** X2.  [sendCalls] returns an identifier exactly when it asked the
    wallet and the wallet answered with that identifier: the answer is
    returned as it is. *)
Theorem returns_wallet_answer client parameters id :
  result (sendCalls client parameters) = inr id <->
  (exists r o, requests (log (sendCalls client parameters)) = [(r, o)] /\
               Client.request client r o = inr id).
Proof.
  split.
  - intros Hres.
    destruct (sendCalls_requests client parameters)
      as [H | (a & l & calls & c & h & _ & _ & _ & _ & H & Hr)].
    + exfalso. rewrite sendCalls_paths in H, Hres. unfold log, result in *.
      destruct (truthy_account _) as [a |]; [| discriminate].
      destruct (mapM _ _) as [l [e | calls]]; [discriminate |].
      destruct (resolveChain client parameters) as [c |]; [| discriminate].
      destruct (numberToHex _) as [e | h]; [discriminate |].
      simpl in H. rewrite requests_app in H. simpl in H.
      apply app_eq_nil in H as [_ H]. discriminate.
    + exists (assembled parameters (parseAccount a) calls h), (RequestOptions.mk 0).
      split; [assumption |]. rewrite Hres in Hr.
      destruct (Client.request client _ _); [discriminate | congruence].
  - intros (r & o & Hreq & Hid).
    destruct (sendCalls_requests client parameters)
      as [H | (a & l & calls & c & h & _ & _ & _ & _ & H & Hr)];
      rewrite H in Hreq; [discriminate |].
    inversion Hreq; subst. now rewrite Hr, Hid.
Qed.

(** X3.  A request handed to the wallet has method [wallet_sendCalls] and
    one parameter object, whose [from] is the address of the resolved
    account, whose [chainId] is the converted id of the resolved chain,
    whose [capabilities] are the caller's and whose [version] is the
    caller's or, without one, 1.0. *)
Theorem request_envelope client parameters r o :
  In (r, o) (requests (log (sendCalls client parameters))) ->
  RpcRequest.method r = "wallet_sendCalls" /\
  exists p a c,
    RpcRequest.params r = [p] /\
    truthy_account (resolveAccount client parameters) = Some a /\
    SendCallsParams.from p = Account.address (parseAccount a) /\
    resolveChain client parameters = Some c /\
    numberToHex (number (Chain.id c)) = inr (SendCallsParams.chainId p) /\
    SendCallsParams.capabilities p = Parameters.capabilities parameters /\
    SendCallsParams.version p
    = match Parameters.version parameters with Some v => v | None => "1.0" end.
Proof.
  intros Hin.
  destruct (sendCalls_requests client parameters)
    as [H | (a & l & calls & c & h & Ha & _ & Hc & Hh & H & _)];
    rewrite H in Hin; simpl in Hin; [contradiction |].
  destruct Hin as [E | []]. inversion E; subst r o. clear E.
  split; [reflexivity |].
  exists (SendCallsParams.mk calls (Parameters.capabilities parameters) h
            (Account.address (parseAccount a)) (resolveVersion parameters)), a, c.
  simpl. auto 10.
Qed.

(** X4.  When the caller passes both an account and a chain, the account
    and the chain of the client play no part: two clients with the same
    transport give the same log and the same outcome. *)
Theorem explicit_parameters_override_client client client' parameters a c :
  Parameters.account parameters = Some a ->
  Parameters.chain parameters = Some c ->
  (forall r o, Client.request client r o = Client.request client' r o) ->
  sendCalls client parameters = sendCalls client' parameters.
Proof.
  intros Ha Hc Hreq. rewrite !sendCalls_paths.
  unfold resolveAccount, resolveChain. rewrite Ha, Hc. simpl nullish.
  destruct (truthy_account (Some a)); [| reflexivity].
  destruct (mapM _ _) as [l [e | calls]]; [reflexivity |].
  destruct (numberToHex _); [reflexivity |]. simpl. now rewrite Hreq.
Qed.

(** Where an error thrown by the callback comes from. *)
Lemma normalizeCall_throw_origin chain call e :
  result (normalizeCall chain call) = inl e ->
  (truthy_num (resolveChainId chain call) = None /\ e = ChainNotFoundError) \/
  (exists abi, Call.abi call = Some abi /\
     encodeFunctionData abi (Call.functionName call) (Call.args call) = inl e) \/
  (exists n, resolveChainId chain call = Some n /\
     numberToHex (number n) = inl e) \/
  (exists v, Call.value call = Some v /\ numberToHex (bigint v) = inl e).
Proof.
  unfold normalizeCall, result.
  destruct (truthy_num (resolveChainId chain call)) as [n |] eqn:Hn.
  - apply truthy_num_Some in Hn as [Hn _].
    pose proof (resolveData_cases call) as Hd.
    pose proof (resolveValue_cases call) as Hv.
    destruct (Call.abi call) as [abi |] eqn:Habi; simpl in Hd.
    + destruct (encodeFunctionData abi _ _) as [ee | d] eqn:He; rewrite Hd; simpl.
      * intros H; inversion H; subst. right; left. eauto.
      * destruct (numberToHex (number n)) as [eh | h] eqn:Hh; simpl.
        { intros H; inversion H; subst. right; right; left. eauto. }
        destruct (truthy_num (Call.value call)) as [w |] eqn:Hw.
        { apply truthy_num_Some in Hw as [Hw _].
          destruct (numberToHex (bigint w)) as [ev | hv] eqn:Hb; rewrite Hv; simpl;
            intros H; inversion H; subst. right; right; right. eauto. }
        rewrite Hv. simpl. discriminate.
    + rewrite Hd. simpl.
      destruct (numberToHex (number n)) as [eh | h] eqn:Hh; simpl.
      { intros H; inversion H; subst. right; right; left. eauto. }
      destruct (truthy_num (Call.value call)) as [w |] eqn:Hw.
      { apply truthy_num_Some in Hw as [Hw _].
        destruct (numberToHex (bigint w)) as [ev | hv] eqn:Hb; rewrite Hv; simpl;
          intros H; inversion H; subst. right; right; right. eauto. }
      rewrite Hv. simpl. discriminate.
  - simpl. intros H; inversion H; subst. left. auto.
Qed.

(** X5.  Every error [sendCalls] throws is one of: [AccountNotFoundError]
    (no account); an error of the callback on a call of the batch, namely
    [ChainNotFoundError], what the encoder threw on that call, or what
    [numberToHex] threw on its chain id or amount; or the result of
    [getTransactionError] on the [TypeError] of a missing batch-level chain,
    on what [numberToHex] threw on the batch-level chain id, or on what the
    wallet threw. *)
Theorem error_taxonomy client parameters e :
  result (sendCalls client parameters) = inl e ->
  (truthy_account (resolveAccount client parameters) = None /\
   e = AccountNotFoundError "/experimental/eip5792/sendCalls") \/
  (exists call, In call (Parameters.calls parameters) /\
     ((truthy_num (resolveChainId (resolveChain client parameters) call) = None /\
       e = ChainNotFoundError) \/
      (exists abi, Call.abi call = Some abi /\
         encodeFunctionData abi (Call.functionName call) (Call.args call) = inl e) \/
      (exists n, resolveChainId (resolveChain client parameters) call = Some n /\
         numberToHex (number n) = inl e) \/
      (exists v, Call.value call = Some v /\ numberToHex (bigint v) = inl e))) \/
  (exists a cause,
     truthy_account (resolveAccount client parameters) = Some a /\
     e = getTransactionError cause (errorArgs parameters (parseAccount a)) /\
     ((resolveChain client parameters = None /\
       cause = TypeError "Cannot read properties of undefined (reading 'id')") \/
      (exists c, resolveChain client parameters = Some c /\
         numberToHex (number (Chain.id c)) = inl cause) \/
      (exists r o, In (r, o) (requests (log (sendCalls client parameters))) /\
         Client.request client r o = inl cause))).
Proof.
  rewrite sendCalls_paths. unfold result, log.
  destruct (truthy_account _) as [a |] eqn:Ha; simpl.
  2: { intros H; inversion H; subst. left. auto. }
  destruct (mapM _ _) as [l [em | calls]] eqn:Hm; simpl.
  { intros H; inversion H; subst. right; left.
    destruct (mapM_throw_origin (normalizeCall (resolveChain client parameters))
                (Parameters.calls parameters) e)
      as (call & Hin & Hcall); [now rewrite Hm |].
    exists call. split; [assumption |].
    apply normalizeCall_throw_origin. assumption. }
  destruct (resolveChain client parameters) as [c |] eqn:Hc; simpl.
  2: { intros H; inversion H; subst. right; right. exists a, (TypeError
         "Cannot read properties of undefined (reading 'id')"). auto 10. }
  destruct (numberToHex (number (Chain.id c))) as [eh | h] eqn:Hh; simpl.
  { intros H; inversion H; subst. right; right. exists a, eh.
    split; [reflexivity |]. split; [reflexivity |]. right; left. eauto. }
  destruct (Client.request client _ _) as [er | id] eqn:Hr; [| discriminate].
  intros H; inversion H; subst. right; right. exists a, er.
  split; [reflexivity |]. split; [reflexivity |]. right; right.
  exists (assembled parameters (parseAccount a) calls h), (RequestOptions.mk 0).
  split; [| assumption].
  rewrite requests_app. apply in_or_app. right. simpl. auto.
Qed.

(** X6.  Whatever the callback throws on the first call it fails on
    (also an error of [numberToHex] on a chain id or an amount) is thrown
    by [sendCalls] as it is, not through [getTransactionError], and the
    wallet is not asked. *)
Theorem first_callback_error_propagates client parameters a pre call post e :
  truthy_account (resolveAccount client parameters) = Some a ->
  Parameters.calls parameters = pre ++ call :: post ->
  Forall (fun c => exists l n,
            normalizeCall (resolveChain client parameters) c = (l, inr n)) pre ->
  result (normalizeCall (resolveChain client parameters) call) = inl e ->
  result (sendCalls client parameters) = inl e /\
  requests (log (sendCalls client parameters)) = [].
Proof.
  intros Ha Hcalls Hpre Hcall.
  assert (Hm : result (mapM (normalizeCall (resolveChain client parameters))
                         (Parameters.calls parameters)) = inl e).
  { rewrite Hcalls.
    destruct (normalizeCall (resolveChain client parameters) call)
      as [lc rc] eqn:Hc. unfold result in Hcall. simpl in Hcall. subst rc.
    apply mapM_first_throw with (lx := lc); [| assumption].
    eapply Forall_impl; [| exact Hpre].
    intros c (l & n & Hok) e'. rewrite Hok. discriminate. }
  unfold result in Hm. split.
  - rewrite sendCalls_paths, Ha.
    destruct (mapM _ _) as [l [e' | calls]]; simpl in *;
      [inversion Hm; reflexivity | discriminate].
  - destruct (sendCalls_requests client parameters)
      as [H | (a' & l & calls & c & h & _ & Hm' & _)]; [assumption |].
    rewrite Hm' in Hm. discriminate.
Qed.

(** X7.  When [numberToHex] throws on the id of the batch-level chain
    (line 128, inside [try]), the error goes through [getTransactionError]
    and the wallet is not asked, although every call was normalized. *)
Theorem batch_chain_id_failure_is_wrapped client parameters a l calls c e :
  truthy_account (resolveAccount client parameters) = Some a ->
  mapM (normalizeCall (resolveChain client parameters))
    (Parameters.calls parameters) = (l, inr calls) ->
  resolveChain client parameters = Some c ->
  numberToHex (number (Chain.id c)) = inl e ->
  result (sendCalls client parameters)
  = inl (getTransactionError e (errorArgs parameters (parseAccount a))) /\
  requests (log (sendCalls client parameters)) = [].
Proof.
  intros Ha Hm Hc Hh. split.
  - rewrite sendCalls_paths, Ha, Hm, Hc, Hh. reflexivity.
  - destruct (sendCalls_requests client parameters)
      as [H | (a' & l' & calls' & c' & h & _ & _ & Hc' & Hh' & _)];
      [assumption |].
    rewrite Hc in Hc'. inversion Hc'; subst. rewrite Hh in Hh'. discriminate.
Qed.

(** X8.  Calls behind a call on which the callback throws have no effect:
    replacing them changes neither the log (they are not encoded) nor the
    outcome. *)
Theorem calls_after_failure_are_ignored client parameters pre call post post' e :
  result (normalizeCall (resolveChain client parameters) call) = inl e ->
  sendCalls client (withCalls parameters (pre ++ call :: post))
  = sendCalls client (withCalls parameters (pre ++ call :: post')).
Proof.
  intros Hcall. rewrite !sendCalls_paths.
  change (resolveAccount client (withCalls parameters (pre ++ call :: post)))
    with (resolveAccount client parameters).
  change (resolveAccount client (withCalls parameters (pre ++ call :: post')))
    with (resolveAccount client parameters).
  change (resolveChain client (withCalls parameters (pre ++ call :: post)))
    with (resolveChain client parameters).
  change (resolveChain client (withCalls parameters (pre ++ call :: post')))
    with (resolveChain client parameters).
  destruct (truthy_account _) as [a |]; [| reflexivity].
  simpl Parameters.calls.
  rewrite (mapM_suffix_irrelevant _ pre call post post' e Hcall).
  destruct (normalizeCall (resolveChain client parameters) call)
    as [lc rc] eqn:Hc. unfold result in Hcall. simpl in Hcall. subst rc.
  destruct (mapM_throws_In (normalizeCall (resolveChain client parameters))
              (pre ++ call :: post') call lc e) as [e' He'];
    [apply in_or_app; right; left; reflexivity | assumption |].
  unfold result in He'.
  destruct (mapM _ _) as [l [em | calls]]; simpl in *; [reflexivity | discriminate].
Qed.

(** X9.  A normalized call keeps [to] as it is.  For a call with an [abi]
    its [data] is what the encoder returned, asked once, and a [data] of
    the call itself is ignored; for a call without [abi] it is the call's
    [data], and the encoder is not asked. *)
Theorem payload_and_destination chain call l out :
  normalizeCall chain call = (l, inr out) ->
  NormalizedCall.to out = Call.to call /\
  (forall abi, Call.abi call = Some abi ->
     l = [EncodeCall abi (Call.functionName call) (Call.args call)] /\
     exists d,
       encodeFunctionData abi (Call.functionName call) (Call.args call) = inr d /\
       NormalizedCall.data out = Some d) /\
  (Call.abi call = None -> l = [] /\ NormalizedCall.data out = Call.data call).
Proof.
  intros H.
  apply normalizeCall_ok in H as (n & h & d & v & _ & _ & Hd & _ & ->). simpl.
  pose proof (resolveData_cases call) as Hc.
  split; [reflexivity |]. split.
  - intros abi Habi. rewrite Habi in Hc. simpl in Hc.
    destruct (encodeFunctionData abi _ _) as [e | d'];
      rewrite Hc in Hd; inversion Hd; subst. eauto.
  - intros Habi. rewrite Habi in Hc. rewrite Hc in Hd. inversion Hd; subst. auto.
Qed.

(** X10.  A batch without calls is not rejected: with an account and a
    convertible batch-level chain id the wallet is asked, once, with an
    empty list of calls, and nothing else happens. *)
Theorem empty_batch_is_dispatched client parameters a c h :
  Parameters.calls parameters = [] ->
  truthy_account (resolveAccount client parameters) = Some a ->
  resolveChain client parameters = Some c ->
  numberToHex (number (Chain.id c)) = inr h ->
  log (sendCalls client parameters)
  = [RequestCall
       (RpcRequest.mk "wallet_sendCalls"
          [SendCallsParams.mk [] (Parameters.capabilities parameters) h
             (Account.address (parseAccount a)) (resolveVersion parameters)])
       (RequestOptions.mk 0)].
Proof.
  intros Hcalls Ha Hc Hh.
  rewrite sendCalls_paths, Ha, Hcalls, Hc. simpl. rewrite Hh. reflexivity.
Qed.

(** X11.  In the log of [sendCalls] every encoder invocation comes before
    the request to the wallet: nothing is encoded once the wallet has been
    asked. *)
Theorem encoding_precedes_dispatch client parameters :
  log (sendCalls client parameters)
  = map encodeEvent (encodings (log (sendCalls client parameters)))
    ++ map requestEvent (requests (log (sendCalls client parameters))).
Proof.
  pose proof (mapM_requests (normalizeCall (resolveChain client parameters))
                (Parameters.calls parameters)
                (normalizeCall_requests _)) as Hl.
  rewrite sendCalls_paths. unfold log in *.
  destruct (truthy_account _) as [a |]; [| reflexivity].
  destruct (mapM _ _) as [l [e | calls]]; simpl in *.
  - rewrite Hl. simpl. rewrite app_nil_r. apply log_without_requests, Hl.
  - assert (Hplain : l = map encodeEvent (encodings l))
      by apply log_without_requests, Hl.
    destruct (resolveChain client parameters) as [c |]; simpl.
    + destruct (numberToHex _); simpl.
      * rewrite Hl. simpl. now rewrite app_nil_r.
      * rewrite encodings_app, requests_app, Hl. simpl. rewrite app_nil_r.
        now rewrite <- Hplain.
    + rewrite Hl. simpl. now rewrite app_nil_r.
Qed.

(** X12.  The encoder is asked for calls with an [abi] only, at most once
    each and in batch order: its invocations are a prefix of the triples
    the batch carries, and all of them when the wallet is asked. *)
Theorem encoder_invocations client parameters :
  exists rest,
    encoderInputs (Parameters.calls parameters)
    = encodings (log (sendCalls client parameters)) ++ rest /\
    (requests (log (sendCalls client parameters)) <> [] -> rest = []).
Proof.
  destruct (mapM_encodings (resolveChain client parameters)
              (Parameters.calls parameters)) as (rest & Hrest & Hok).
  pose proof (mapM_requests (normalizeCall (resolveChain client parameters))
                (Parameters.calls parameters)
                (normalizeCall_requests _)) as Hl.
  rewrite sendCalls_paths. unfold log in *.
  destruct (truthy_account _) as [a |].
  2: { exists (encoderInputs (Parameters.calls parameters)).
       split; [reflexivity | intros H; now contradiction H]. }
  destruct (mapM _ _) as [l [e | calls]]; simpl in *.
  { exists rest. split; [assumption | congruence]. }
  destruct (resolveChain client parameters) as [c |]; simpl.
  2: { exists rest. split; [assumption | congruence]. }
  destruct (numberToHex _); simpl.
  { exists rest. split; [assumption | congruence]. }
  exists []. split; [| reflexivity].
  rewrite encodings_app. simpl. rewrite !app_nil_r.
  rewrite (Hok l calls eq_refl), app_nil_r in Hrest. assumption.
Qed.
(** [map] over a concatenation runs over the first part, then over the
    second. *)
Lemma mapM_app {A B} (f : A -> M B) xs ys :
  mapM f (xs ++ ys)
  = bind (mapM f xs) (fun a => bind (mapM f ys) (fun b => ret (a ++ b))).
Proof.
  induction xs as [| x xs IH]; simpl.
  - destruct (mapM f ys) as [l [e | b]]; simpl; [reflexivity |].
    now rewrite app_nil_r.
  - rewrite IH. destruct (f x) as [lx [e | y]]; simpl; [reflexivity |].
    destruct (mapM f xs) as [l1 [e1 | a]]; simpl; [reflexivity |].
    destruct (mapM f ys) as [l2 [e2 | b]]; simpl;
      rewrite ?app_nil_r, ?app_assoc; reflexivity.
Qed.

(** X13.  Without an [account] and a [chain] parameter the request is
    built from the client's: [from] is the address of the client's account
    and [chainId] the converted id of the client's chain. *)
Theorem client_defaults_are_used client parameters acc c r o p :
  Parameters.account parameters = None ->
  Parameters.chain parameters = None ->
  Client.account client = Some acc ->
  Client.chain client = Some c ->
  In (r, o) (requests (log (sendCalls client parameters))) ->
  In p (RpcRequest.params r) ->
  SendCallsParams.from p = Account.address (parseAccount (AccountObject acc)) /\
  numberToHex (number (Chain.id c)) = inr (SendCallsParams.chainId p).
Proof.
  intros Hpa Hpc Hca Hcc Hin Hp.
  destruct (sendCalls_requests client parameters)
    as [H | (a & l & calls & c' & h & Ha & _ & Hc & Hh & H & _)];
    rewrite H in Hin; simpl in Hin; [contradiction |].
  destruct Hin as [E | []]. inversion E; subst r o. clear E.
  simpl in Hp. destruct Hp as [<- | []]. simpl.
  unfold resolveAccount in Ha. rewrite Hpa, Hca in Ha. simpl in Ha.
  inversion Ha; subst a.
  unfold resolveChain in Hc. rewrite Hpc, Hcc in Hc. simpl in Hc.
  inversion Hc; subst c'. auto.
Qed.

(** X14.  Normalizing a concatenation of two lists of calls succeeds
    exactly when normalizing each list succeeds, and then yields the
    normalized calls of the first followed by those of the second, with
    the encoder asked in that order. *)
Theorem normalization_of_concatenation chain xs ys l out :
  mapM (normalizeCall chain) (xs ++ ys) = (l, inr out) <->
  (exists l1 out1 l2 out2,
     mapM (normalizeCall chain) xs = (l1, inr out1) /\
     mapM (normalizeCall chain) ys = (l2, inr out2) /\
     l = l1 ++ l2 /\ out = out1 ++ out2).
Proof.
  rewrite mapM_app. split.
  - intros H.
    apply bind_ok in H as (l1 & out1 & l' & H1 & H & ->).
    apply bind_ok in H as (l2 & out2 & l3 & H2 & H & ->).
    inversion H; subst. exists l1, out1, l2, out2.
    rewrite app_nil_r. auto.
  - intros (l1 & out1 & l2 & out2 & H1 & H2 & -> & ->).
    rewrite H1, H2. simpl. now rewrite app_nil_r.
Qed.

End Properties.

Example sendCalls_doc :
  run docClient docParameters
  = ([RequestCall
        (RpcRequest.mk "wallet_sendCalls"
           [SendCallsParams.mk
              [NormalizedCall.mk "0x1" (Some "0xdeadbeef") (Some bob) None;
               NormalizedCall.mk "0x1" None (Some bob) (Some "0x10f2c")]
              None "0x1" alice "1.0"])
        (RequestOptions.mk 0)],
     inr "0xdeadbeef").
Proof. reflexivity. Qed.


(* ------------------------------------------------------------------ *)
(** ** The theorems at work on concrete batches *)

(** A client without a chain and a batch whose calls name their own chains:
    both calls are normalized, then the [TypeError] is thrown and wrapped, and
    the wallet is not asked. *)
Lemma no_batch_chain_never_dispatches_witness :
  run chainlessClient perCallChains
  = ([],
     inl (TransactionExecutionError
            (TypeError "Cannot read properties of undefined (reading 'id')")
            (ErrorArgs.mk (Account.mk alice "json-rpc")
               (Parameters.calls perCallChains) None None None))).
Proof.
  apply (proj2 (proj2 (no_batch_chain_never_dispatches parseAccount_spec
                         encodeFunctionData_stub numberToHex_spec
                         getTransactionError_spec chainlessClient perCallChains
                         eq_refl))
           (AddressRef alice) []
           [NormalizedCall.mk "0x1" (Some "0xdeadbeef") (Some bob) None;
            NormalizedCall.mk "0xa" None (Some bob) (Some "0x10f2c")]);
    reflexivity.
Defined.

(** An amount of 69420 appears as 0x10f2c. *)
Lemma value_present_iff_nonzero_witness :
  exists h, numberToHex_spec (bigint 69420) = inr h /\ Some "0x10f2c" = Some h.
Proof.
  apply (proj2 (value_present_iff_nonzero encodeFunctionData_stub numberToHex_spec
                  (Some mainnet) (rawCall bob None (Some 69420)) []
                  (NormalizedCall.mk "0x1" None (Some bob) (Some "0x10f2c"))
                  eq_refl) 69420).
  - reflexivity.
  - lia.
Defined.

(** A batch for Optimism, passed explicitly, rejected by the wallet. *)
Lemma dispatch_failure_is_translated_witness :
  exists a args,
    truthy_account (resolveAccount rejectingClient onOptimism) = Some a /\
    result (run rejectingClient onOptimism)
    = inl (getTransactionError_spec userRejected args) /\
    ErrorArgs.account args = parseAccount_spec a /\
    ErrorArgs.chain args = Parameters.chain onOptimism /\
    ErrorArgs.calls args = Parameters.calls onOptimism /\
    ErrorArgs.capabilities args = Parameters.capabilities onOptimism /\
    ErrorArgs.version args = Parameters.version onOptimism /\
    (Parameters.chain onOptimism <> None ->
     ErrorArgs.chain args = resolveChain rejectingClient onOptimism).
Proof.
  apply (dispatch_failure_is_translated parseAccount_spec encodeFunctionData_stub
           numberToHex_spec getTransactionError_spec rejectingClient onOptimism
           (RpcRequest.mk "wallet_sendCalls"
              [SendCallsParams.mk
                 [NormalizedCall.mk "0xa" (Some "0xdeadbeef") (Some bob) None;
                  NormalizedCall.mk "0xa" None (Some bob) (Some "0x10f2c")]
                 None "0xa" alice "1.0"])
           (RequestOptions.mk 0) userRejected).
  - vm_compute. auto.
  - reflexivity.
Defined.

(** Descriptor (id 10) and bare id (137) on one call: the descriptor wins. *)
Lemma chain_id_precedence_witness :
  resolveChainId (Some mainnet) bothChains = Some 10 /\
  exists l out, normalize (Some mainnet) bothChains = (l, inr out) /\
                NormalizedCall.chainId out = "0xa".
Proof.
  destruct (chain_id_precedence encodeFunctionData_stub numberToHex_spec
              (Some mainnet) bothChains) as (Hdesc & _ & _ & _ & _ & Hret).
  split.
  - apply (Hdesc optimism). reflexivity.
  - apply (Hret optimism "0xa").
    + reflexivity.
    + simpl. lia.
    + reflexivity.
    + intros abi Habi. discriminate Habi.
    + intros v Hv. discriminate Hv.
Defined.

(** No account anywhere: the structured call of the batch is not encoded. *)
Lemma account_missing_throws_first_witness :
  run docClient anonymousParameters
  = ([], inl (AccountNotFoundError "/experimental/eip5792/sendCalls")).
Proof.
  apply (account_missing_throws_first parseAccount_spec encodeFunctionData_stub
           numberToHex_spec getTransactionError_spec
           docClient anonymousParameters); reflexivity.
Defined.


(** The second normalized call is the callback's result on the second call. *)
Lemma normalization_is_pointwise_witness :
  exists li n,
    normalize None (withChain optimism (rawCall bob None (Some 69420))) = (li, inr n) /\
    nth_error
      [NormalizedCall.mk "0x1" (Some "0xdeadbeef") (Some bob) None;
       NormalizedCall.mk "0xa" None (Some bob) (Some "0x10f2c")] 1
    = Some n.
Proof.
  apply (proj1 (proj2 (normalization_is_pointwise parseAccount_spec
                         encodeFunctionData_stub numberToHex_spec
                         getTransactionError_spec
                         None (Parameters.calls perCallChains)
                         [] _ eq_refl))).
  reflexivity.
Defined.

(** The encoder rejects the second call: its error is what is thrown. *)
Lemma encoding_failure_propagates_witness :
  result (run docClient burnParameters)
  = inl (Thrown "AbiFunctionNotFoundError" "Function not found on ABI.") /\
  requests (log (run docClient burnParameters)) = [].
Proof.
  apply (encoding_failure_propagates parseAccount_spec encodeFunctionData_stub
           numberToHex_spec getTransactionError_spec docClient burnParameters
           ["function mint()"; "function burn()"] (Some "burn") (Some [])).
  - vm_compute. auto.
  - reflexivity.
Defined.

(** A rejecting wallet is asked once. *)
Lemma single_attempt_without_retry_witness :
  requests (log (run rejectingClient docParameters))
  = [(RpcRequest.mk "wallet_sendCalls"
        [SendCallsParams.mk
           [NormalizedCall.mk "0x1" (Some "0xdeadbeef") (Some bob) None;
            NormalizedCall.mk "0x1" None (Some bob) (Some "0x10f2c")]
           None "0x1" alice "1.0"],
      RequestOptions.mk 0)].
Proof.
  apply (proj2 (proj2 (single_attempt_without_retry parseAccount_spec
                         encodeFunctionData_stub numberToHex_spec
                         getTransactionError_spec rejectingClient docParameters))
           _ _ userRejected).
  - vm_compute. auto.
  - reflexivity.
Defined.

(** A bare chain id of 0 on a client with a chain. *)
Lemma chain_id_zero_is_missing_witness :
  normalize (Some mainnet) (withChainId 0 (rawCall bob None None))
  = ([], inl ChainNotFoundError).
Proof.
  apply (proj1 (chain_id_zero_is_missing parseAccount_spec encodeFunctionData_stub
                  numberToHex_spec getTransactionError_spec
                  (Some mainnet) (withChainId 0 (rawCall bob None None)))).
  reflexivity.
Defined.

(* ------------------------------------------------------------------ *)
(** ** Where the action departs from the specification *)

(** C2.  A transfer amount of zero is present in the call and absent from
    the normalized call. *)
Lemma zero_value_is_dropped :
  normalize (Some mainnet) zeroValue
  = ([], inr (NormalizedCall.mk "0x1" None (Some bob) None)) /\
  ~ value_presence_as_specified encodeFunctionData_stub numberToHex_spec
      (Some mainnet) zeroValue.
Proof.
  split; [reflexivity |]. intros H.
  destruct (H [] _ eq_refl) as [_ Hpresent].
  destruct (Hpresent 0 eq_refl) as (h & _ & Hv). discriminate Hv.
Qed.

(** C3.  A batch sent through a client on mainnet, without a [chain]
    parameter, to a wallet that rejects it: the batch is built for mainnet
    and the translated error carries no chain. *)
Lemma ambient_chain_missing_from_error_context :
  resolveChain rejectingClient docParameters = Some mainnet /\
  result (run rejectingClient docParameters)
  = inl (TransactionExecutionError userRejected
           (ErrorArgs.mk (Account.mk alice "json-rpc")
              (Parameters.calls docParameters) None None None)) /\
  ~ error_context_as_specified parseAccount_spec encodeFunctionData_stub
      numberToHex_spec getTransactionError_spec rejectingClient docParameters.
Proof.
  split; [reflexivity |]. split; [reflexivity |]. intros H.
  destruct (H (RpcRequest.mk "wallet_sendCalls"
                 [SendCallsParams.mk
                    [NormalizedCall.mk "0x1" (Some "0xdeadbeef") (Some bob) None;
                     NormalizedCall.mk "0x1" None (Some bob) (Some "0x10f2c")]
                    None "0x1" alice "1.0"])
              (RequestOptions.mk 0) userRejected)
    as (a & args & _ & Hres & _ & Hchain).
  - vm_compute. auto.
  - reflexivity.
  - vm_compute in Hres. inversion Hres; subst args. discriminate Hchain.
Qed.


(* ------------------------------------------------------------------ *)
(** ** The further properties at work on concrete batches *)

(** The documentation scenario meets the four conditions. *)
Lemma dispatch_condition_witness :
  exists r o, In (r, o) (requests (log (run docClient docParameters))).
Proof.
  apply (proj2 (dispatch_condition parseAccount_spec encodeFunctionData_stub
                  numberToHex_spec getTransactionError_spec
                  docClient docParameters)).
  exists (AddressRef alice), [],
    [NormalizedCall.mk "0x1" (Some "0xdeadbeef") (Some bob) None;
     NormalizedCall.mk "0x1" None (Some bob) (Some "0x10f2c")],
    mainnet, "0x1".
  repeat split; reflexivity.
Defined.

(** The accepting wallet's identifier comes back. *)
Lemma returns_wallet_answer_witness :
  result (run docClient docParameters) = inr "0xdeadbeef".
Proof.
  apply (proj2 (returns_wallet_answer parseAccount_spec encodeFunctionData_stub
                  numberToHex_spec getTransactionError_spec
                  docClient docParameters "0xdeadbeef")).
  exists docRequest, (RequestOptions.mk 0). split; reflexivity.
Defined.

(** The envelope of the documentation scenario. *)
Lemma request_envelope_witness :
  RpcRequest.method docRequest = "wallet_sendCalls" /\
  exists p a c,
    RpcRequest.params docRequest = [p] /\
    truthy_account (resolveAccount docClient docParameters) = Some a /\
    SendCallsParams.from p = Account.address (parseAccount_spec a) /\
    resolveChain docClient docParameters = Some c /\
    numberToHex_spec (number (Chain.id c)) = inr (SendCallsParams.chainId p) /\
    SendCallsParams.capabilities p = Parameters.capabilities docParameters /\
    SendCallsParams.version p
    = match Parameters.version docParameters with Some v => v | None => "1.0" end.
Proof.
  apply (request_envelope parseAccount_spec encodeFunctionData_stub
           numberToHex_spec getTransactionError_spec
           docClient docParameters docRequest (RequestOptions.mk 0)).
  vm_compute. auto.
Defined.

(** A client with an account and a chain, and one without an account: with
    account and chain passed explicitly both behave alike. *)
Lemma explicit_parameters_override_client_witness :
  run bobOnMainnet onOptimism = run docClient onOptimism.
Proof.
  apply (explicit_parameters_override_client parseAccount_spec
           encodeFunctionData_stub numberToHex_spec getTransactionError_spec
           bobOnMainnet docClient onOptimism (AddressRef alice) optimism);
    reflexivity.
Defined.

(** The error of the batch with the rejected function is found among the
    listed origins. *)
Lemma error_taxonomy_witness :
  (truthy_account (resolveAccount docClient burnParameters) = None /\
   functionNotFound = AccountNotFoundError "/experimental/eip5792/sendCalls") \/
  (exists call, In call (Parameters.calls burnParameters) /\
     ((truthy_num (resolveChainId (resolveChain docClient burnParameters) call) = None /\
       functionNotFound = ChainNotFoundError) \/
      (exists abi, Call.abi call = Some abi /\
         encodeFunctionData_stub abi (Call.functionName call) (Call.args call)
         = inl functionNotFound) \/
      (exists n, resolveChainId (resolveChain docClient burnParameters) call = Some n /\
         numberToHex_spec (number n) = inl functionNotFound) \/
      (exists v, Call.value call = Some v /\
         numberToHex_spec (bigint v) = inl functionNotFound))) \/
  (exists a cause,
     truthy_account (resolveAccount docClient burnParameters) = Some a /\
     functionNotFound
     = getTransactionError_spec cause (errorArgs burnParameters (parseAccount_spec a)) /\
     ((resolveChain docClient burnParameters = None /\
       cause = TypeError "Cannot read properties of undefined (reading 'id')") \/
      (exists c, resolveChain docClient burnParameters = Some c /\
         numberToHex_spec (number (Chain.id c)) = inl cause) \/
      (exists r o, In (r, o) (requests (log (run docClient burnParameters))) /\
         Client.request docClient r o = inl cause))).
Proof.
  apply (error_taxonomy parseAccount_spec encodeFunctionData_stub
           numberToHex_spec getTransactionError_spec
           docClient burnParameters functionNotFound).
  reflexivity.
Defined.

(** A negative chain id on the second call: the conversion error is thrown
    as it is. *)
Lemma first_callback_error_propagates_witness :
  result (run docClient negativeIdBatch) = inl integerOutOfRange /\
  requests (log (run docClient negativeIdBatch)) = [].
Proof.
  apply (first_callback_error_propagates parseAccount_spec encodeFunctionData_stub
           numberToHex_spec getTransactionError_spec
           docClient negativeIdBatch (AddressRef alice)
           [rawCall bob (Some "0xdeadbeef") None]
           (withChainId (-1) (contractCall bob "mint"))
           [contractCall bob "mint"]).
  - reflexivity.
  - reflexivity.
  - repeat constructor. eexists. eexists. reflexivity.
  - reflexivity.
Defined.

(** A negative id on the client's chain: the conversion error is wrapped. *)
Lemma batch_chain_id_failure_is_wrapped_witness :
  result (run brokenChainClient perCallChains)
  = inl (TransactionExecutionError integerOutOfRange
           (ErrorArgs.mk (Account.mk alice "json-rpc")
              (Parameters.calls perCallChains) None None None)) /\
  requests (log (run brokenChainClient perCallChains)) = [].
Proof.
  apply (batch_chain_id_failure_is_wrapped parseAccount_spec
           encodeFunctionData_stub numberToHex_spec getTransactionError_spec
           brokenChainClient perCallChains (AddressRef alice) []
           [NormalizedCall.mk "0x1" (Some "0xdeadbeef") (Some bob) None;
            NormalizedCall.mk "0xa" None (Some bob) (Some "0x10f2c")]
           negativeChain); reflexivity.
Defined.

(** What follows the rejected function does not matter. *)
Lemma calls_after_failure_are_ignored_witness :
  run docClient
    (withCalls burnParameters
       ([contractCall bob "mint"] ++ contractCall bob "burn"
          :: [rawCall bob None None]))
  = run docClient
      (withCalls burnParameters
         ([contractCall bob "mint"] ++ contractCall bob "burn"
            :: [contractCall bob "mint"; contractCall bob "burn"])).
Proof.
  apply (calls_after_failure_are_ignored parseAccount_spec
           encodeFunctionData_stub numberToHex_spec getTransactionError_spec
           docClient burnParameters [contractCall bob "mint"]
           (contractCall bob "burn") [rawCall bob None None]
           [contractCall bob "mint"; contractCall bob "burn"] functionNotFound).
  reflexivity.
Defined.

(** A call with [abi] and [data]: the encoder's output is sent. *)
Lemma payload_and_destination_witness :
  [EncodeCall ["function mint()"] (Some "mint") (Some [])]
  = [EncodeCall ["function mint()"] (Call.functionName mintWithData)
       (Call.args mintWithData)] /\
  exists d,
    encodeFunctionData_stub ["function mint()"] (Call.functionName mintWithData)
      (Call.args mintWithData) = inr d /\
    Some "0x1249c58b" = Some d.
Proof.
  apply (proj1 (proj2 (payload_and_destination encodeFunctionData_stub
                         numberToHex_spec None mintWithData
                         [EncodeCall ["function mint()"] (Some "mint") (Some [])]
                         (NormalizedCall.mk "0x1" (Some "0x1249c58b") (Some bob) None)
                         eq_refl))
           ["function mint()"]).
  reflexivity.
Defined.

(** An empty batch on mainnet. *)
Lemma empty_batch_is_dispatched_witness :
  log (run docClient emptyBatch)
  = [RequestCall
       (RpcRequest.mk "wallet_sendCalls"
          [SendCallsParams.mk [] None "0x1" alice "2.0.0"])
       (RequestOptions.mk 0)].
Proof.
  apply (empty_batch_is_dispatched parseAccount_spec encodeFunctionData_stub
           numberToHex_spec getTransactionError_spec
           docClient emptyBatch (AddressRef alice) mainnet "0x1"); reflexivity.
Defined.

(** Two structured calls, the second rejected: both were handed to the
    encoder and nothing is left over. *)
Lemma encoder_invocations_witness :
  exists rest,
    encoderInputs (Parameters.calls burnParameters)
    = encodings (log (run docClient burnParameters)) ++ rest /\
    (requests (log (run docClient burnParameters)) <> [] -> rest = []).
Proof.
  exact (encoder_invocations parseAccount_spec encodeFunctionData_stub
           numberToHex_spec getTransactionError_spec docClient burnParameters).
Defined.

(** A batch without account and chain sent through a client that has
    both. *)
Lemma client_defaults_are_used_witness :
  bob = Account.address (parseAccount_spec (AccountObject (Account.mk bob "local"))) /\
  numberToHex_spec (number (Chain.id mainnet)) = inr "0x1".
Proof.
  apply (client_defaults_are_used parseAccount_spec encodeFunctionData_stub
           numberToHex_spec getTransactionError_spec
           bobOnMainnet anonymousParameters (Account.mk bob "local") mainnet
           (RpcRequest.mk "wallet_sendCalls"
              [SendCallsParams.mk
                 [NormalizedCall.mk "0x1" (Some "0x1249c58b") (Some bob) None]
                 None "0x1" bob "1.0"])
           (RequestOptions.mk 0)
           (SendCallsParams.mk
              [NormalizedCall.mk "0x1" (Some "0x1249c58b") (Some bob) None]
              None "0x1" bob "1.0")); try reflexivity.
  - vm_compute. auto.
  - simpl. auto.
Defined.

(** The documentation batch as the concatenation of its two calls. *)
Lemma normalization_of_concatenation_witness :
  mapM (normalize (Some mainnet))
    ([rawCall bob (Some "0xdeadbeef") None] ++ [rawCall bob None (Some 69420)])
  = ([] ++ [],
     inr ([NormalizedCall.mk "0x1" (Some "0xdeadbeef") (Some bob) None]
          ++ [NormalizedCall.mk "0x1" None (Some bob) (Some "0x10f2c")])).
Proof.
  apply (proj2 (normalization_of_concatenation encodeFunctionData_stub
                  numberToHex_spec (Some mainnet)
                  [rawCall bob (Some "0xdeadbeef") None]
                  [rawCall bob None (Some 69420)] _ _)).
  exists [], [NormalizedCall.mk "0x1" (Some "0xdeadbeef") (Some bob) None],
    [], [NormalizedCall.mk "0x1" None (Some bob) (Some "0x10f2c")].
  repeat split; reflexivity.
Defined.
